(** * Task-instance routes of the public core API

    A shallow embedding of
    [airflow/api_fastapi/core_api/routes/public/task_instances.py]:
    the lookup routes ([get_task_instance], [get_mapped_task_instances],
    [get_task_instance_dependencies], [get_task_instance_tries]) and the
    clearing route ([post_clear_task_instances]).

    The database session is a record of tables, each a list of rows in
    storage order; a [select ... where] is a [filter] over a table, and a
    route that writes returns the session it leaves behind.  A raised
    exception is the [Raise] branch of [Result]. *)

From Stdlib Require Import ZArith List String Ascii Bool Lia.
From Stdlib Require Import Permutation Sorted DecimalString.
Import ListNotations.

#[local] Open Scope string_scope.
#[local] Open Scope Z_scope.

(** ** States *)

Module TaskInstanceState.
Inductive t : Set :=
  | REMOVED | SCHEDULED | QUEUED | RUNNING | SUCCESS | RESTARTING | FAILED
  | UP_FOR_RETRY | UP_FOR_RESCHEDULE | UPSTREAM_FAILED | SKIPPED | DEFERRED.

Definition eqb (a b : t) : bool :=
  match a, b with
  | REMOVED, REMOVED | SCHEDULED, SCHEDULED | QUEUED, QUEUED
  | RUNNING, RUNNING | SUCCESS, SUCCESS | RESTARTING, RESTARTING
  | FAILED, FAILED | UP_FOR_RETRY, UP_FOR_RETRY
  | UP_FOR_RESCHEDULE, UP_FOR_RESCHEDULE
  | UPSTREAM_FAILED, UPSTREAM_FAILED | SKIPPED, SKIPPED
  | DEFERRED, DEFERRED => true
  | _, _ => false
  end.
End TaskInstanceState.

Module DagRunState.
Inductive t : Set := QUEUED | RUNNING | SUCCESS | FAILED.
End DagRunState.

(** ** Rows

    A timestamp is an integer (an instant on the time line); a column
    that may be NULL is an [option]. The state column of a task instance
    is NULL for the state the API calls [none]. *)

Definition datetime := Z.

Module DagRun.
Record t : Set := Build {
  dag_id : string;
  run_id : string;
  logical_date : option datetime;
  state : DagRunState.t
}.
End DagRun.

(** The composite key (dag_id, run_id, task_id, map_index). *)
Definition TIKey : Set := (string * string * string * Z)%type.

Definition TIKey_eqb (a b : TIKey) : bool :=
  let '(d1, r1, t1, m1) := a in
  let '(d2, r2, t2, m2) := b in
  String.eqb d1 d2 && String.eqb r1 r2 && String.eqb t1 t2 && Z.eqb m1 m2.

Module TI.
Record t : Set := Build {
  dag_id : string;
  run_id : string;
  task_id : string;
  map_index : Z;
  state : option TaskInstanceState.t;
  try_number : Z;
  start_date : option datetime;
  end_date : option datetime;
  duration : option Z
}.

Definition key (ti : t) : TIKey :=
  (dag_id ti, run_id ti, task_id ti, map_index ti).
End TI.

Module TIH.
Record t : Set := Build {
  dag_id : string;
  run_id : string;
  task_id : string;
  map_index : Z;
  try_number : Z;
  state : option TaskInstanceState.t;
  start_date : option datetime;
  end_date : option datetime;
  duration : option Z
}.
End TIH.

Record Session : Set := {
  task_instance : list TI.t;
  task_instance_history : list TIH.t;
  dag_run : list DagRun.t
}.

(** ** Exceptions and results *)

Module status.
Definition HTTP_400_BAD_REQUEST : Z := 400.
Definition HTTP_404_NOT_FOUND : Z := 404.
End status.

(** The detail of an [HTTPException] is whatever object the route passes:
    a string, or (in [get_task_instance_dependencies]) a one-element
    tuple holding the string. *)
Inductive Detail : Set :=
  | Str (s : string)
  | Tuple (items : list string).

Inductive Exception : Set :=
  | HTTPException (status_code : Z) (detail : Detail)
  | TaskNotFound
  | MultipleResultsFound.

Inductive Result (A : Type) : Type :=
  | Ok (a : A)
  | Raise (e : Exception).

Arguments Ok {A} a.
Arguments Raise {A} e.

Definition bind {A B : Type} (r : Result A) (k : A -> Result B) : Result B :=
  match r with
  | Ok a => k a
  | Raise e => Raise e
  end.

Notation "x <- r ;; k" := (bind r (fun x => k))
  (at level 61, r at next level, right associativity).

(** ** Formatting

    An f-string is the concatenation of its pieces; an [int] is printed
    in decimal, with a leading minus sign when negative. *)

Definition str_of_int (z : Z) : string :=
  NilZero.string_of_int (Z.to_int z).

(** ** Queries *)

(** SQL comparison against a NULL-able column is three-valued: [None]
    is UNKNOWN, and a [where] clause keeps the rows whose condition is
    TRUE. *)
Module Sql.
Definition tbool := option bool.

Definition ne (col : option TaskInstanceState.t) (v : TaskInstanceState.t)
  : tbool :=
  match col with
  | None => None
  | Some x => Some (negb (TaskInstanceState.eqb x v))
  end.

Definition is_null {A : Type} (col : option A) : tbool :=
  match col with
  | None => Some true
  | Some _ => Some false
  end.

Definition or_ (a b : tbool) : tbool :=
  match a, b with
  | Some true, _ | _, Some true => Some true
  | Some false, Some false => Some false
  | _, _ => None
  end.

Definition holds (c : tbool) : bool :=
  match c with
  | Some true => true
  | _ => false
  end.
End Sql.

(** [session.scalar]: the first row of the result, or [None]. *)
Definition scalar {A : Type} (rows : list A) : option A := hd_error rows.

(** [Result.one_or_none]: the only row, [None] when there is none, and an
    exception when there is more than one. *)
Definition one_or_none {A : Type} (rows : list A) : Result (option A) :=
  match rows with
  | [] => Ok None
  | [r] => Ok (Some r)
  | _ :: _ :: _ => Raise MultipleResultsFound
  end.

Definition owns (dr : DagRun.t) (ti : TI.t) : bool :=
  String.eqb (DagRun.dag_id dr) (TI.dag_id ti)
  && String.eqb (DagRun.run_id dr) (TI.run_id ti).

(** [.join(TI.dag_run)]: an inner join, one result row per pair of a task
    instance and a dag run that owns it. *)
Definition join_dag_run (session : Session) (rows : list TI.t) : list TI.t :=
  flat_map
    (fun ti => map (fun _ => ti) (filter (fun dr => owns dr ti) (dag_run session)))
    rows.

Definition select_dag_run (session : Session) (dag_id run_id : string)
  : list DagRun.t :=
  filter
    (fun dr => String.eqb (DagRun.dag_id dr) dag_id
               && String.eqb (DagRun.run_id dr) run_id)
    (dag_run session).

(** ** get_task_instance *)

Definition get_task_instance_query
    (dag_id dag_run_id task_id : string) (session : Session) : list TI.t :=
  join_dag_run session
    (filter
       (fun ti => String.eqb (TI.dag_id ti) dag_id
                  && String.eqb (TI.run_id ti) dag_run_id
                  && String.eqb (TI.task_id ti) task_id)
       (task_instance session)).

Definition get_task_instance
    (dag_id dag_run_id task_id : string) (session : Session) : Result TI.t :=
  let query := get_task_instance_query dag_id dag_run_id task_id session in
  match scalar query with
  | None =>
      Raise (HTTPException status.HTTP_404_NOT_FOUND
               (Str ("The Task Instance with dag_id: `" ++ dag_id
                     ++ "`, run_id: `" ++ dag_run_id
                     ++ "` and task_id: `" ++ task_id ++ "` was not found")))
  | Some task_instance =>
      if negb (TI.map_index task_instance =? -1) then
        Raise (HTTPException status.HTTP_404_NOT_FOUND
                 (Str "Task instance is mapped, add the map_index value to the URL"))
      else Ok task_instance
  end.

(** ** get_task_instance_tries *)

(** A row of the tries listing: a history row or a live row. *)
Inductive TryRow : Set :=
  | History (h : TIH.t)
  | Live (ti : TI.t).

Record TaskInstanceHistoryCollectionResponse : Set := {
  tries_task_instances : list TryRow;
  tries_total_entries : nat
}.

Definition tries_query_TI
    (dag_id dag_run_id task_id : string) (map_index : Z) (session : Session)
  : list TI.t :=
  filter
    (fun o => String.eqb (TI.dag_id o) dag_id
              && String.eqb (TI.run_id o) dag_run_id
              && String.eqb (TI.task_id o) task_id
              && (TI.map_index o =? map_index))
    (task_instance session).

Definition tries_query_TIH
    (dag_id dag_run_id task_id : string) (map_index : Z) (session : Session)
  : list TIH.t :=
  filter
    (fun o => String.eqb (TIH.dag_id o) dag_id
              && String.eqb (TIH.run_id o) dag_run_id
              && String.eqb (TIH.task_id o) task_id
              && (TIH.map_index o =? map_index))
    (task_instance_history session).

(** [or_(TI.state != UP_FOR_RETRY, TI.state.is_(None))] *)
Definition not_up_for_retry (ti : TI.t) : bool :=
  Sql.holds
    (Sql.or_ (Sql.ne (TI.state ti) TaskInstanceState.UP_FOR_RETRY)
             (Sql.is_null (TI.state ti))).

Definition get_task_instance_tries
    (dag_id dag_run_id task_id : string) (session : Session) (map_index : Z)
  : Result TaskInstanceHistoryCollectionResponse :=
  let tis :=
    filter not_up_for_retry
      (tries_query_TI dag_id dag_run_id task_id map_index session) in
  let task_instances :=
    (map History (tries_query_TIH dag_id dag_run_id task_id map_index session)
     ++ map Live tis)%list in
  match task_instances with
  | [] =>
      Raise (HTTPException status.HTTP_404_NOT_FOUND
               (Str ("The Task Instance with dag_id: `" ++ dag_id
                     ++ "`, run_id: `" ++ dag_run_id
                     ++ "`, task_id: `" ++ task_id
                     ++ "` and map_index: `" ++ str_of_int map_index
                     ++ "` was not found")))
  | _ :: _ =>
      Ok {| tries_task_instances := task_instances;
            tries_total_entries := List.length task_instances |}
  end.

(** ** DAG definitions and the DAG bag *)

Record Task : Set := {
  task_task_id : string;
  needs_expansion : bool;
  upstream_task_ids : list string;
  downstream_task_ids : list string
}.

(** [task_dict] keeps insertion order, as a Python dict does. *)
Record DAG : Set := {
  dag_dag_id : string;
  task_dict : list (string * Task)
}.

Definition get_task (dag : DAG) (task_id : string) : Result Task :=
  match find (fun kv => String.eqb (fst kv) task_id) (task_dict dag) with
  | Some kv => Ok (snd kv)
  | None => Raise TaskNotFound
  end.

Definition get_needs_expansion (task : Task) : bool := needs_expansion task.

(** The DAG bag is handed to every route; its two lookups are taken as
    given.  [get_dag_for_run] receives what the route passes, which in
    [get_task_instance_dependencies] may be [None]. *)
Record DagBag : Type := {
  get_latest_version_of_dag : string -> option DAG;
  get_dag_for_run : option DagRun.t -> option DAG
}.

(** ** Sorting

    Python's [sorted] is stable: elements that compare equal keep their
    order.  Insertion from the right, placing an element before the first
    one it is not greater than, is stable in the same way. *)

Fixpoint insert_by {A : Type} (le : A -> A -> bool) (x : A) (l : list A)
  : list A :=
  match l with
  | [] => [x]
  | y :: l' => if le x y then x :: y :: l' else y :: insert_by le x l'
  end.

Definition sorted {A : Type} (le : A -> A -> bool) (l : list A) : list A :=
  fold_right (insert_by le) [] l.

(** ** get_mapped_task_instances *)

Record TaskInstanceCollectionResponse : Set := {
  task_instances : list TI.t;
  total_entries : nat
}.

(** The query parameters of a listing: the conjunction of the range and
    value filters, the ordering, and the page. *)
Record Page : Type := {
  filters : TI.t -> bool;
  order_by : TI.t -> TI.t -> bool;
  offset : nat;
  limit : nat
}.

(** Modelled from the spec: [paginated_select]
    (airflow.api_fastapi.common.db.common) is not among the sources; the
    spec names pagination as a collaborator of the API layer.  It is taken
    as: apply the filters, count, then order, skip [offset] rows and keep
    [limit] rows. *)
Definition paginated_select (statement : list TI.t) (page : Page)
  : list TI.t * nat :=
  let filtered := filter (filters page) statement in
  (firstn (limit page) (skipn (offset page) (sorted (order_by page) filtered)),
   List.length filtered).

Definition get_mapped_task_instances_query
    (dag_id dag_run_id task_id : string) (session : Session) : list TI.t :=
  join_dag_run session
    (filter
       (fun ti => String.eqb (TI.dag_id ti) dag_id
                  && String.eqb (TI.run_id ti) dag_run_id
                  && String.eqb (TI.task_id ti) task_id
                  && (0 <=? TI.map_index ti))
       (task_instance session)).

Definition get_mapped_task_instances
    (dag_id dag_run_id task_id : string) (dag_bag : DagBag) (page : Page)
    (session : Session) : Result TaskInstanceCollectionResponse :=
  let query := get_mapped_task_instances_query dag_id dag_run_id task_id session in
  let unfiltered_total_count := List.length query in
  _ <- (if Nat.eqb unfiltered_total_count 0 then
          let dag_run := scalar (select_dag_run session dag_id dag_run_id) in
          let dag :=
            match dag_run with
            | Some dr => get_dag_for_run dag_bag (Some dr)
            | None => get_latest_version_of_dag dag_bag dag_id
            end in
          match dag with
          | None =>
              Raise (HTTPException status.HTTP_404_NOT_FOUND
                       (Str ("DAG " ++ dag_id ++ " not found")))
          | Some dag =>
              match get_task dag task_id with
              | Raise TaskNotFound =>
                  Raise (HTTPException status.HTTP_404_NOT_FOUND
                           (Str ("Task id " ++ task_id ++ " not found")))
              | Raise e => Raise e
              | Ok task =>
                  if negb (get_needs_expansion task) then
                    Raise (HTTPException status.HTTP_404_NOT_FOUND
                             (Str ("Task id " ++ task_id ++ " is not mapped")))
                  else Ok tt
              end
          end
        else Ok tt) ;;
  let '(task_instance_select, total_entries) := paginated_select query page in
  Ok {| task_instances := task_instance_select;
        total_entries := total_entries |}.

(** ** get_task_instance_dependencies *)

(** One dependency policy of a dep context: its name, and the reason it
    gives when the task instance fails it ([None] when it passes). *)
Record Dep : Type := {
  dep_name : string;
  failing_reason : TI.t -> Task -> Session -> option string
}.

Record TIDepStatus : Set := {
  status_dep_name : string;
  status_reason : string
}.

(** The dict [{"name": ..., "reason": ...}] of the response. *)
Record DependencyStatus : Set := {
  name : string;
  reason : string
}.

Record TaskDependencyCollectionResponse : Set := {
  dependencies : list DependencyStatus
}.

(** A computation that evaluates policies yields its value together with
    the names of the policies it evaluated, in evaluation order. *)
Definition Evaluated (A : Type) : Type := (A * list string)%type.

Definition pure {A : Type} (a : A) : Evaluated A := (a, []).

(** Modelled from the spec: [TaskInstance.get_failed_dep_statuses]
    (airflow.models.taskinstance) is not among the sources.  Each policy of
    the context is evaluated independently; a failing policy contributes
    exactly one status (its name and reason), a passing one nothing. *)
Definition get_failed_dep_statuses
    (ti : TI.t) (task : Task) (dep_context : list Dep) (session : Session)
  : Evaluated (list TIDepStatus) :=
  (flat_map
     (fun dep =>
        match failing_reason dep ti task session with
        | Some r => [{| status_dep_name := dep_name dep; status_reason := r |}]
        | None => []
        end)
     dep_context,
   map dep_name dep_context).

Definition name_le (x y : DependencyStatus) : bool :=
  String.leb (name x) (name y).

Definition is_none_or_scheduled (state : option TaskInstanceState.t) : bool :=
  match state with
  | None => true
  | Some s => TaskInstanceState.eqb s TaskInstanceState.SCHEDULED
  end.

(** [SCHEDULER_QUEUED_DEPS] (airflow.ti_deps.dependencies_deps) is a
    constant of the repository outside the sources: it is a parameter. *)
Definition get_task_instance_dependencies
    (SCHEDULER_QUEUED_DEPS : list Dep)
    (dag_id dag_run_id task_id : string) (session : Session)
    (dag_bag : DagBag) (map_index : Z)
  : Evaluated (Result TaskDependencyCollectionResponse) :=
  let query :=
    filter (fun ti => TI.map_index ti =? map_index)
      (filter
         (fun ti => String.eqb (TI.dag_id ti) dag_id
                    && String.eqb (TI.run_id ti) dag_run_id
                    && String.eqb (TI.task_id ti) task_id)
         (task_instance session)) in
  match one_or_none query with
  | Raise e => pure (Raise e)
  | Ok None =>
      let error_message :=
        Tuple ["The Task Instance with dag_id: `" ++ dag_id
               ++ "`, run_id: `" ++ dag_run_id
               ++ "`, task_id: `" ++ task_id
               ++ "` and map_index: `" ++ str_of_int map_index
               ++ "` was not found"] in
      pure (Raise (HTTPException status.HTTP_404_NOT_FOUND error_message))
  | Ok (Some ti) =>
      let '(deps, evaluated) :=
        if is_none_or_scheduled (TI.state ti) then
          let dag_run :=
            scalar (select_dag_run session (TI.dag_id ti) (TI.run_id ti)) in
          match get_dag_for_run dag_bag dag_run with
          | Some dag =>
              match get_task dag (TI.task_id ti) with
              | Raise TaskNotFound => pure (Ok [])
              | Raise e => pure (Raise e)
              | Ok task =>
                  let dep_context := SCHEDULER_QUEUED_DEPS in
                  let '(failed, evaluated) :=
                    get_failed_dep_statuses ti task dep_context session in
                  (Ok (sorted name_le
                         (map (fun dep => {| name := status_dep_name dep;
                                             reason := status_reason dep |})
                              failed)),
                   evaluated)
              end
          | None => pure (Ok [])
          end
        else pure (Ok []) in
      (deps <- deps ;; Ok {| dependencies := deps |}, evaluated)
  end.

(** ** Clearing *)

(** An element of [task_ids]: a task id, or a pair of a task id and a map
    index. *)
Inductive TaskRef : Set :=
  | TaskId (task_id : string)
  | TaskMapIndex (task_id : string) (map_index : Z).

Definition task_ref_id (task : TaskRef) : string :=
  match task with
  | TaskId t => t
  | TaskMapIndex t _ => t
  end.

Record ClearTaskInstancesBody : Set := {
  dry_run : bool;
  start_date : option datetime;
  end_date : option datetime;
  only_failed : bool;
  only_running : bool;
  reset_dag_runs : bool;
  task_ids : option (list TaskRef);
  dag_run_id : option string;
  include_upstream : bool;
  include_downstream : bool;
  include_future : bool;
  include_past : bool;
  run_on_latest_version : bool
}.

Definition with_dry_run (b : bool) (body : ClearTaskInstancesBody)
  : ClearTaskInstancesBody :=
  {| dry_run := b;
     start_date := start_date body; end_date := end_date body;
     only_failed := only_failed body; only_running := only_running body;
     reset_dag_runs := reset_dag_runs body; task_ids := task_ids body;
     dag_run_id := dag_run_id body;
     include_upstream := include_upstream body;
     include_downstream := include_downstream body;
     include_future := include_future body;
     include_past := include_past body;
     run_on_latest_version := run_on_latest_version body |}.

Definition with_start_date (d : option datetime) (body : ClearTaskInstancesBody)
  : ClearTaskInstancesBody :=
  {| dry_run := dry_run body;
     start_date := d; end_date := end_date body;
     only_failed := only_failed body; only_running := only_running body;
     reset_dag_runs := reset_dag_runs body; task_ids := task_ids body;
     dag_run_id := dag_run_id body;
     include_upstream := include_upstream body;
     include_downstream := include_downstream body;
     include_future := include_future body;
     include_past := include_past body;
     run_on_latest_version := run_on_latest_version body |}.

Definition with_end_date (d : option datetime) (body : ClearTaskInstancesBody)
  : ClearTaskInstancesBody :=
  {| dry_run := dry_run body;
     start_date := start_date body; end_date := d;
     only_failed := only_failed body; only_running := only_running body;
     reset_dag_runs := reset_dag_runs body; task_ids := task_ids body;
     dag_run_id := dag_run_id body;
     include_upstream := include_upstream body;
     include_downstream := include_downstream body;
     include_future := include_future body;
     include_past := include_past body;
     run_on_latest_version := run_on_latest_version body |}.

(** *** The task subset *)

Definition relatives (dag : DAG) (upstream : bool) (task_id : string)
  : list string :=
  match find (fun kv => String.eqb (fst kv) task_id) (task_dict dag) with
  | Some kv =>
      if upstream then upstream_task_ids (snd kv)
      else downstream_task_ids (snd kv)
  | None => []
  end.

(** All tasks reachable from [frontier] along one direction, in at most
    [fuel] steps. *)
Fixpoint get_flat_relatives
    (fuel : nat) (dag : DAG) (upstream : bool) (frontier : list string)
  : list string :=
  match fuel with
  | O => []
  | S fuel' =>
      let direct := flat_map (relatives dag upstream) frontier in
      (direct ++ get_flat_relatives fuel' dag upstream direct)%list
  end.

Definition mem_string (x : string) (l : list string) : bool :=
  existsb (String.eqb x) l.

(** Modelled from the spec: [DAG.partial_subset] (airflow.models.dag) is
    not among the sources.  The effective task set is the supplied task
    ids, expanded by upstream and downstream graph traversal when the
    corresponding flag is set; the sub-DAG keeps the tasks of that set, in
    the order of the DAG.  A path in a DAG visits no task twice, so
    [length (task_dict dag)] steps reach every relative. *)
Definition partial_subset
    (dag : DAG) (task_ids : list string)
    (include_downstream include_upstream : bool) : DAG :=
  let fuel := List.length (task_dict dag) in
  let also :=
    ((if include_downstream then get_flat_relatives fuel dag false task_ids
      else [])
     ++ (if include_upstream then get_flat_relatives fuel dag true task_ids
         else []))%list in
  {| dag_dag_id := dag_dag_id dag;
     task_dict :=
       filter
         (fun kv => mem_string (fst kv) task_ids || mem_string (fst kv) also)
         (task_dict dag) |}.

(** *** The affected set *)

(** The scope keyword arguments of [DAG.clear]: [run_id=...], or
    [start_date=..., end_date=...]. *)
Inductive Scope : Set :=
  | ByRunId (run_id : string)
  | ByDates (start_date end_date : option datetime).

Definition ref_matches (ti : TI.t) (task : TaskRef) : bool :=
  match task with
  | TaskId t => String.eqb (TI.task_id ti) t
  | TaskMapIndex t i => String.eqb (TI.task_id ti) t && (TI.map_index ti =? i)
  end.

(** A bound that is [None] is absent; a run without a logical date is
    inside no bounded side of a window. *)
Definition in_window (lo hi : option datetime) (d : option datetime) : bool :=
  match lo with
  | None => true
  | Some l => match d with Some x => l <=? x | None => false end
  end
  &&
  match hi with
  | None => true
  | Some h => match d with Some x => x <=? h | None => false end
  end.

Definition in_scope (session : Session) (scope : Scope) (ti : TI.t) : bool :=
  match scope with
  | ByRunId run_id => String.eqb (TI.run_id ti) run_id
  | ByDates start_date end_date =>
      existsb
        (fun dr => owns dr ti
                   && in_window start_date end_date (DagRun.logical_date dr))
        (dag_run session)
  end.

Section Clearing.

(** The spec leaves open which states count as the retry-equivalent of
    [failed] and of [running]: they are parameters. *)
Variable failed_equivalent : TaskInstanceState.t -> bool.
Variable running_equivalent : TaskInstanceState.t -> bool.

Definition in_states
    (accept : TaskInstanceState.t -> bool) (state : option TaskInstanceState.t)
  : bool :=
  match state with
  | None => false
  | Some s => accept s
  end.

Definition failed_like (s : TaskInstanceState.t) : bool :=
  TaskInstanceState.eqb s TaskInstanceState.FAILED || failed_equivalent s.

Definition running_like (s : TaskInstanceState.t) : bool :=
  TaskInstanceState.eqb s TaskInstanceState.RUNNING || running_equivalent s.

(** The task instances of the DAG in the runs in scope whose state the
    filter accepts; when task ids are supplied, those of the tasks of the
    sub-DAG that the ids name. *)
Definition select_affected
    (dag : DAG) (session : Session) (task_ids : option (list TaskRef))
    (scope : Scope) (state_filter : option TaskInstanceState.t -> bool)
  : list TI.t :=
  filter
    (fun ti =>
       String.eqb (TI.dag_id ti) (dag_dag_id dag)
       && match task_ids with
          | None => true
          | Some refs =>
              mem_string (TI.task_id ti) (map fst (task_dict dag))
              && existsb (ref_matches ti) refs
          end
       && in_scope session scope ti
       && state_filter (TI.state ti))
    (task_instance session).

(** Modelled from the spec: [DAG.clear] with [dry_run=True]
    (airflow.models.dag) is not among the sources.  It computes the
    affected set without mutation: all task instances of the DAG in the
    runs in scope; if task ids are supplied, those of the expanded task
    set; [only_failed] or [only_running] restricts to the task instances
    in the failed or running states (or their retry-equivalent).  The two
    flags are mutually exclusive: combining them is a caller error,
    InvalidRequest, and is not resolved in favour of either. *)
Definition dag_clear
    (dag : DAG) (session : Session) (task_ids : option (list TaskRef))
    (only_failed only_running : bool) (scope : Scope)
  : Result (list TI.t) :=
  match only_failed, only_running with
  | true, true =>
      Raise (HTTPException status.HTTP_400_BAD_REQUEST
               (Str "only_failed and only_running are mutually exclusive"))
  | true, false =>
      Ok (select_affected dag session task_ids scope (in_states failed_like))
  | false, true =>
      Ok (select_affected dag session task_ids scope (in_states running_like))
  | false, false =>
      Ok (select_affected dag session task_ids scope (fun _ => true))
  end.

(** *** The mutation *)

(** The try-specific fields are cleared and the state becomes [none]; the
    key and [try_number] stay. *)
Definition reset (ti : TI.t) : TI.t :=
  {| TI.dag_id := TI.dag_id ti;
     TI.run_id := TI.run_id ti;
     TI.task_id := TI.task_id ti;
     TI.map_index := TI.map_index ti;
     TI.state := None;
     TI.try_number := TI.try_number ti;
     TI.start_date := None;
     TI.end_date := None;
     TI.duration := None |}.

Definition snapshot (ti : TI.t) : TIH.t :=
  {| TIH.dag_id := TI.dag_id ti;
     TIH.run_id := TI.run_id ti;
     TIH.task_id := TI.task_id ti;
     TIH.map_index := TI.map_index ti;
     TIH.try_number := TI.try_number ti;
     TIH.state := TI.state ti;
     TIH.start_date := TI.start_date ti;
     TIH.end_date := TI.end_date ti;
     TIH.duration := TI.duration ti |}.

Definition same_try (h : TIH.t) (ti : TI.t) : bool :=
  String.eqb (TIH.dag_id h) (TI.dag_id ti)
  && String.eqb (TIH.run_id h) (TI.run_id ti)
  && String.eqb (TIH.task_id h) (TI.task_id ti)
  && (TIH.map_index h =? TI.map_index ti)
  && (TIH.try_number h =? TI.try_number ti).

(** Modelled from the spec: the History Archiver (section 4.2) is not
    among the sources.  A row whose state is [up_for_retry] or [None] is
    not archived; archiving a try that already has a history row is a
    no-op; otherwise one history row copying the try-scoped fields is
    inserted. *)
Definition archive (ti : TI.t) (history : list TIH.t) : list TIH.t :=
  match TI.state ti with
  | None => history
  | Some TaskInstanceState.UP_FOR_RETRY => history
  | Some _ =>
      if existsb (fun h => same_try h ti) history then history
      else (history ++ [snapshot ti])%list
  end.

Definition is_affected (tis : list TI.t) (row : TI.t) : bool :=
  existsb (fun ti => TIKey_eqb (TI.key ti) (TI.key row)) tis.

Definition force_state (st : DagRunState.t) (dr : DagRun.t) : DagRun.t :=
  {| DagRun.dag_id := DagRun.dag_id dr;
     DagRun.run_id := DagRun.run_id dr;
     DagRun.logical_date := DagRun.logical_date dr;
     DagRun.state := st |}.

(** Modelled from the spec: [clear_task_instances]
    (airflow.models.taskinstance) is not among the sources.  In the order
    archive, mutate the task instances, conditionally mutate the dag runs:
    each affected task instance is reset, and when a dag run state is
    given ([False] is [None]) the owning dag runs are forced to it.  The
    objects passed in are the rows themselves, so the caller sees them
    reset: they are returned with the session.  The binding to a dag
    version, which [run_on_latest_version] chooses, is not a column of the
    rows modelled here. *)
Definition clear_task_instances
    (tis : list TI.t) (session : Session)
    (dag_run_state : option DagRunState.t) (run_on_latest_version : bool)
  : list TI.t * Session :=
  let history :=
    fold_left (fun h ti => archive ti h) tis (task_instance_history session) in
  let rows :=
    map (fun row => if is_affected tis row then reset row else row)
        (task_instance session) in
  let runs :=
    match dag_run_state with
    | None => dag_run session
    | Some st =>
        map (fun dr => if existsb (owns dr) tis then force_state st dr else dr)
            (dag_run session)
    end in
  (map reset tis,
   {| task_instance := rows;
      task_instance_history := history;
      dag_run := runs |}).

(** *** post_clear_task_instances *)

(** [tid != task_id] compares a string with a list of strings: it holds
    whatever the two are. *)
Definition ne_str_list (tid : string) (task_id : list string) : bool := true.

Definition post_clear_task_instances
    (dag_id : string) (dag_bag : DagBag) (body : ClearTaskInstancesBody)
    (session : Session)
  : Result TaskInstanceCollectionResponse * Session :=
  match get_latest_version_of_dag dag_bag dag_id with
  | None =>
      (Raise (HTTPException status.HTTP_404_NOT_FOUND
                (Str ("DAG " ++ dag_id ++ " not found"))),
       session)
  | Some dag =>
      let reset_dag_runs := reset_dag_runs body in
      let dry_run := dry_run body in
      let dag_run_id := dag_run_id body in
      let future := include_future body in
      let past := include_past body in
      let downstream := include_downstream body in
      let upstream := include_upstream body in
      let run_scoped : Result (DAG * ClearTaskInstancesBody) :=
        match dag_run_id with
        | Some dag_run_id =>
            match scalar (select_dag_run session dag_id dag_run_id) with
            | None =>
                Raise (HTTPException status.HTTP_404_NOT_FOUND
                         (Str ("Dag Run id " ++ dag_run_id
                               ++ " not found in dag " ++ dag_id)))
            | Some dag_run =>
                match get_dag_for_run dag_bag (Some dag_run) with
                | None =>
                    Raise (HTTPException status.HTTP_404_NOT_FOUND
                             (Str ("DAG " ++ dag_id ++ " not found")))
                | Some dag =>
                    if past || future then
                      Raise (HTTPException status.HTTP_400_BAD_REQUEST
                               (Str "Cannot use include_past or include_future when dag_run_id is provided because logical_date is not applicable."))
                    else
                      Ok (dag,
                          with_end_date (DagRun.logical_date dag_run)
                            (with_start_date (DagRun.logical_date dag_run) body))
                end
            end
        | None => Ok (dag, body)
        end in
      match run_scoped with
      | Raise e => (Raise e, session)
      | Ok (dag, body) =>
          let body := if past then with_start_date None body else body in
          let body := if future then with_end_date None body else body in
          let '(dag, task_ids) :=
            match task_ids body with
            | Some task_ids =>
                let task_id := map task_ref_id task_ids in
                let dag := partial_subset dag task_id downstream upstream in
                let task_ids :=
                  if (1 <? List.length (task_dict dag))%nat then
                    (task_ids
                     ++ map TaskId
                          (filter (fun tid => ne_str_list tid task_id)
                                  (map fst (task_dict dag))))%list
                  else task_ids in
                (dag, Some task_ids)
            | None => (dag, None)
            end in
          let clear := fun scope =>
            dag_clear dag session task_ids
              (only_failed body) (only_running body) scope in
          let task_instances :=
            match dag_run_id with
            | Some dag_run_id =>
                if negb (past || future) then clear (ByRunId dag_run_id)
                else clear (ByDates (start_date body) (end_date body))
            | None => clear (ByDates (start_date body) (end_date body))
            end in
          match task_instances with
          | Raise e => (Raise e, session)
          | Ok task_instances =>
              let '(task_instances, session) :=
                if negb dry_run then
                  clear_task_instances task_instances session
                    (if reset_dag_runs then Some DagRunState.QUEUED else None)
                    (run_on_latest_version body)
                else (task_instances, session) in
              (Ok {| task_instances := task_instances;
                     total_entries := List.length task_instances |},
               session)
          end
      end
  end.

End Clearing.

(** ** The error taxonomy *)

Definition NotFound (e : Exception) : Prop :=
  exists detail, e = HTTPException status.HTTP_404_NOT_FOUND detail.

Definition InvalidRequest (e : Exception) : Prop :=
  exists detail, e = HTTPException status.HTTP_400_BAD_REQUEST detail.

(** ** Notions the statements use *)

Module TIHKey.
Definition key (h : TIH.t) : TIKey :=
  (TIH.dag_id h, TIH.run_id h, TIH.task_id h, TIH.map_index h).
End TIHKey.

(** A live row is listed among the tries unless its state is
    [up_for_retry]; a row without a state is listed. *)
Definition listed_live (ti : TI.t) : bool :=
  match TI.state ti with
  | Some TaskInstanceState.UP_FOR_RETRY => false
  | _ => true
  end.

(** The DAG that [get_mapped_task_instances] resolves when no row matches:
    the version of the dag run when the run exists, the latest version
    otherwise. *)
Definition resolved_dag
    (dag_bag : DagBag) (session : Session) (dag_id dag_run_id : string)
  : option DAG :=
  match scalar (select_dag_run session dag_id dag_run_id) with
  | Some dr => get_dag_for_run dag_bag (Some dr)
  | None => get_latest_version_of_dag dag_bag dag_id
  end.

(** The rows with a given composite key. *)
Definition by_key (k : TIKey) (row : TI.t) : bool := TIKey_eqb (TI.key row) k.

(** What one policy contributes to the failed statuses, and the response
    entry made of a status. *)
Definition failed_of (ti : TI.t) (task : Task) (session : Session) (dep : Dep)
  : list TIDepStatus :=
  match failing_reason dep ti task session with
  | Some r => [{| status_dep_name := dep_name dep; status_reason := r |}]
  | None => []
  end.

Definition to_status (dep : TIDepStatus) : DependencyStatus :=
  {| name := status_dep_name dep; reason := status_reason dep |}.

(** The relation a boolean comparison decides. *)
Definition holds_true {A : Type} (le : A -> A -> bool) (x y : A) : Prop :=
  le x y = true.

(** Ascending order of names, and of dependency statuses by name. *)
Definition ascending : string -> string -> Prop := holds_true String.leb.

Definition name_ordered : DependencyStatus -> DependencyStatus -> Prop :=
  holds_true name_le.

(** A timestamp falls in a window whose absent bounds are open. *)
Definition falls_in (lo hi : option datetime) (d : option datetime) : Prop :=
  (forall l, lo = Some l -> exists x, d = Some x /\ l <= x)
  /\ (forall h, hi = Some h -> exists x, d = Some x /\ x <= h).

(** The sub-DAG and the task references a request narrows the clearing
    to, from the DAG it resolved: the task-subset step of
    [post_clear_task_instances]. *)
Definition effective_subset (dag : DAG) (body : ClearTaskInstancesBody)
  : DAG * option (list TaskRef) :=
  match task_ids body with
  | Some task_ids =>
      let task_id := map task_ref_id task_ids in
      let dag :=
        partial_subset dag task_id
          (include_downstream body) (include_upstream body) in
      (dag,
       Some (if (1 <? List.length (task_dict dag))%nat then
               (task_ids
                ++ map TaskId
                     (filter (fun tid => ne_str_list tid task_id)
                             (map fst (task_dict dag))))%list
             else task_ids))
  | None => (dag, None)
  end.

(** The window a date-range request hands to [DAG.clear]. *)
Definition lower_bound (body : ClearTaskInstancesBody) : option datetime :=
  if include_past body then None else start_date body.

Definition upper_bound (body : ClearTaskInstancesBody) : option datetime :=
  if include_future body then None else end_date body.

(** What a request resolves to: the DAG it clears against and its scope.
    A request that names a dag run resolves when the DAG, the run and the
    DAG of the run are found and neither [include_past] nor
    [include_future] is set; a request without a run id resolves when the
    DAG is found, to the window its dates and the two flags leave. *)
Inductive Resolves
    (dag_bag : DagBag) (session : Session) (dag_id : string)
    (body : ClearTaskInstancesBody) : DAG -> Scope -> Prop :=
  | resolves_run (run_id : string) (latest dag : DAG) (run : DagRun.t) :
      dag_run_id body = Some run_id ->
      get_latest_version_of_dag dag_bag dag_id = Some latest ->
      scalar (select_dag_run session dag_id run_id) = Some run ->
      get_dag_for_run dag_bag (Some run) = Some dag ->
      include_past body = false ->
      include_future body = false ->
      Resolves dag_bag session dag_id body dag (ByRunId run_id)
  | resolves_dates (dag : DAG) :
      dag_run_id body = None ->
      get_latest_version_of_dag dag_bag dag_id = Some dag ->
      Resolves dag_bag session dag_id body dag
        (ByDates (lower_bound body) (upper_bound body)).

(** A task instance of the DAG is in a run scope when it belongs to the
    named run, and in a date scope when a dag run that owns it has its
    logical date in the window. *)
Definition in_scope_of
    (session : Session) (dag : DAG) (scope : Scope) (ti : TI.t) : Prop :=
  TI.dag_id ti = dag_dag_id dag
  /\ match scope with
     | ByRunId run_id => TI.run_id ti = run_id
     | ByDates lo hi =>
         exists dr, In dr (dag_run session) /\ owns dr ti = true
                    /\ falls_in lo hi (DagRun.logical_date dr)
     end.

(** When task ids are supplied, the task of the task instance is in the
    sub-DAG and one of the references names it. *)
Definition within_task_subset
    (dag : DAG) (refs : option (list TaskRef)) (ti : TI.t) : Prop :=
  forall l, refs = Some l ->
    In (TI.task_id ti) (map fst (task_dict dag))
    /\ exists ref, In ref l /\ ref_matches ti ref = true.

(** The state filters of a request, each binding only when it is set. *)
Definition passes_state_filters
    (failed_equivalent running_equivalent : TaskInstanceState.t -> bool)
    (body : ClearTaskInstancesBody) (ti : TI.t) : Prop :=
  (only_failed body = true ->
     exists s, TI.state ti = Some s
               /\ (s = TaskInstanceState.FAILED \/ failed_equivalent s = true))
  /\ (only_running body = true ->
        exists s, TI.state ti = Some s
                  /\ (s = TaskInstanceState.RUNNING
                      \/ running_equivalent s = true)).

(** The task instances a resolved request affects: the live rows in
    scope, within the task subset and the state filters of the request. *)
Definition Affected
    (failed_equivalent running_equivalent : TaskInstanceState.t -> bool)
    (session : Session) (dag : DAG) (body : ClearTaskInstancesBody)
    (scope : Scope) (ti : TI.t) : Prop :=
  In ti (task_instance session)
  /\ in_scope_of session dag scope ti
  /\ within_task_subset (fst (effective_subset dag body))
       (snd (effective_subset dag body)) ti
  /\ passes_state_filters failed_equivalent running_equivalent body ti.

(** Some affected task instance has the key of the row. *)
Definition touched
    (failed_equivalent running_equivalent : TaskInstanceState.t -> bool)
    (session : Session) (dag : DAG) (body : ClearTaskInstancesBody)
    (scope : Scope) (row : TI.t) : Prop :=
  exists ti,
    Affected failed_equivalent running_equivalent session dag body scope ti
    /\ TI.key ti = TI.key row.

(** ** A small installation, for the examples *)

Module Example.

Definition extract : Task :=
  {| task_task_id := "extract"; needs_expansion := false;
     upstream_task_ids := []; downstream_task_ids := ["load"] |}.

Definition load : Task :=
  {| task_task_id := "load"; needs_expansion := true;
     upstream_task_ids := ["extract"]; downstream_task_ids := [] |}.

Definition etl : DAG :=
  {| dag_dag_id := "etl";
     task_dict := [("extract", extract); ("load", load)] |}.

Definition bag : DagBag :=
  {| get_latest_version_of_dag :=
       fun dag_id => if String.eqb dag_id "etl" then Some etl else None;
     get_dag_for_run :=
       fun dr =>
         match dr with
         | Some dr => if String.eqb (DagRun.dag_id dr) "etl" then Some etl else None
         | None => None
         end |}.

Definition r1 : DagRun.t :=
  DagRun.Build "etl" "r1" (Some 10) DagRunState.FAILED.

Definition r2 : DagRun.t :=
  DagRun.Build "etl" "r2" (Some 20) DagRunState.SUCCESS.

Definition extract_r1 : TI.t :=
  TI.Build "etl" "r1" "extract" (-1) (Some TaskInstanceState.FAILED) 1
    (Some 10) (Some 12) (Some 2).

Definition load_r1_0 : TI.t :=
  TI.Build "etl" "r1" "load" 0 (Some TaskInstanceState.UPSTREAM_FAILED) 0
    None None None.

Definition extract_r2 : TI.t :=
  TI.Build "etl" "r2" "extract" (-1) (Some TaskInstanceState.SUCCESS) 2
    (Some 20) (Some 21) (Some 1).

Definition extract_r2_try1 : TIH.t :=
  TIH.Build "etl" "r2" "extract" (-1) 1 (Some TaskInstanceState.FAILED)
    (Some 20) (Some 20) (Some 0).

Definition load_r2_0 : TI.t :=
  TI.Build "etl" "r2" "load" 0 (Some TaskInstanceState.SCHEDULED) 0
    None None None.

Definition store : Session :=
  {| task_instance := [extract_r1; load_r1_0; extract_r2; load_r2_0];
     task_instance_history := [extract_r2_try1];
     dag_run := [r1; r2] |}.

(** A request scoped to a run that does not exist, with [include_past]. *)
Definition clear_missing_run_past : ClearTaskInstancesBody :=
  {| dry_run := true; start_date := None; end_date := None;
     only_failed := false; only_running := false; reset_dag_runs := true;
     task_ids := None; dag_run_id := Some "r9";
     include_upstream := false; include_downstream := false;
     include_future := false; include_past := true;
     run_on_latest_version := false |}.

(** The scenario of the spec: clear run [r1], failed instances only. *)
Definition clear_r1_failed : ClearTaskInstancesBody :=
  {| dry_run := false; start_date := None; end_date := None;
     only_failed := true; only_running := false; reset_dag_runs := true;
     task_ids := None; dag_run_id := Some "r1";
     include_upstream := false; include_downstream := false;
     include_future := false; include_past := false;
     run_on_latest_version := false |}.

(** A date-range request from instant 15 on, open-ended forward. *)
Definition clear_from_15 : ClearTaskInstancesBody :=
  {| dry_run := true; start_date := Some 15; end_date := Some 16;
     only_failed := false; only_running := false; reset_dag_runs := false;
     task_ids := None; dag_run_id := None;
     include_upstream := false; include_downstream := false;
     include_future := true; include_past := false;
     run_on_latest_version := false |}.

Definition clear_both_filters : ClearTaskInstancesBody :=
  {| dry_run := false; start_date := None; end_date := None;
     only_failed := true; only_running := true; reset_dag_runs := true;
     task_ids := None; dag_run_id := Some "r1";
     include_upstream := false; include_downstream := false;
     include_future := false; include_past := false;
     run_on_latest_version := false |}.

(** A request scoped to run [r1], with [include_past]. *)
Definition clear_r1_past : ClearTaskInstancesBody :=
  {| dry_run := false; start_date := None; end_date := None;
     only_failed := false; only_running := false; reset_dag_runs := true;
     task_ids := None; dag_run_id := Some "r1";
     include_upstream := false; include_downstream := false;
     include_future := false; include_past := true;
     run_on_latest_version := false |}.

Definition no_equivalent (s : TaskInstanceState.t) : bool := false.

Definition pool_slots : Dep :=
  {| dep_name := "Pool Slots Available";
     failing_reason := fun _ _ _ => Some "no open slots" |}.

Definition dag_unpaused : Dep :=
  {| dep_name := "Dag Not Paused";
     failing_reason := fun _ _ _ => Some "the dag is paused" |}.

Definition by_map_index : Page :=
  {| filters := fun _ => true;
     order_by := fun a b => TI.map_index a <=? TI.map_index b;
     offset := 0; limit := 50 |}.

End Example.

(** ** The other lookup routes *)

(** *** get_mapped_task_instance *)

Definition get_mapped_task_instance_query
    (dag_id dag_run_id task_id : string) (map_index : Z) (session : Session)
  : list TI.t :=
  join_dag_run session
    (filter
       (fun ti => String.eqb (TI.dag_id ti) dag_id
                  && String.eqb (TI.run_id ti) dag_run_id
                  && String.eqb (TI.task_id ti) task_id
                  && (TI.map_index ti =? map_index))
       (task_instance session)).

Definition get_mapped_task_instance
    (dag_id dag_run_id task_id : string) (map_index : Z) (session : Session)
  : Result TI.t :=
  let query :=
    get_mapped_task_instance_query dag_id dag_run_id task_id map_index
      session in
  match scalar query with
  | None =>
      Raise (HTTPException status.HTTP_404_NOT_FOUND
               (Str ("The Mapped Task Instance with dag_id: `" ++ dag_id
                     ++ "`, run_id: `" ++ dag_run_id
                     ++ "`, task_id: `" ++ task_id
                     ++ "`, and map_index: `" ++ str_of_int map_index
                     ++ "` was not found")))
  | Some task_instance => Ok task_instance
  end.

(** *** get_mapped_task_instance_tries *)

Definition get_mapped_task_instance_tries
    (dag_id dag_run_id task_id : string) (session : Session) (map_index : Z)
  : Result TaskInstanceHistoryCollectionResponse :=
  get_task_instance_tries dag_id dag_run_id task_id session map_index.

(** *** get_task_instance_try_details *)

Definition try_details_query_TI
    (dag_id dag_run_id task_id : string) (task_try_number map_index : Z)
    (session : Session) : option TI.t :=
  scalar
    (filter
       (fun o => String.eqb (TI.dag_id o) dag_id
                 && String.eqb (TI.run_id o) dag_run_id
                 && String.eqb (TI.task_id o) task_id
                 && (TI.try_number o =? task_try_number)
                 && (TI.map_index o =? map_index))
       (task_instance session)).

Definition try_details_query_TIH
    (dag_id dag_run_id task_id : string) (task_try_number map_index : Z)
    (session : Session) : option TIH.t :=
  scalar
    (filter
       (fun o => String.eqb (TIH.dag_id o) dag_id
                 && String.eqb (TIH.run_id o) dag_run_id
                 && String.eqb (TIH.task_id o) task_id
                 && (TIH.try_number o =? task_try_number)
                 && (TIH.map_index o =? map_index))
       (task_instance_history session)).

(** [_query(TI) or _query(TIH)]: a row object is truthy, so the live row
    is the result whenever there is one. *)
Definition get_task_instance_try_details
    (dag_id dag_run_id task_id : string) (task_try_number : Z)
    (session : Session) (map_index : Z) : Result TryRow :=
  let result :=
    match try_details_query_TI dag_id dag_run_id task_id task_try_number
            map_index session with
    | Some ti => Some (Live ti)
    | None =>
        match try_details_query_TIH dag_id dag_run_id task_id
                task_try_number map_index session with
        | Some h => Some (History h)
        | None => None
        end
    end in
  match result with
  | None =>
      Raise (HTTPException status.HTTP_404_NOT_FOUND
               (Str ("The Task Instance with dag_id: `" ++ dag_id
                     ++ "`, run_id: `" ++ dag_run_id
                     ++ "`, task_id: `" ++ task_id
                     ++ "`, try_number: `" ++ str_of_int task_try_number
                     ++ "` and map_index: `" ++ str_of_int map_index
                     ++ "` was not found")))
  | Some result => Ok result
  end.

Definition get_mapped_task_instance_try_details
    (dag_id dag_run_id task_id : string) (task_try_number : Z)
    (session : Session) (map_index : Z) : Result TryRow :=
  get_task_instance_try_details dag_id dag_run_id task_id task_try_number
    session map_index.

(** *** get_task_instances *)

(** [.outerjoin(TI.dag_version)] keeps every row and adds none: a task
    instance has at most one dag version. *)
Definition get_task_instances
    (dag_id dag_run_id : string) (dag_bag : DagBag) (page : Page)
    (session : Session) : Result TaskInstanceCollectionResponse :=
  let query := join_dag_run session (task_instance session) in
  scoped <-
    (if negb (String.eqb dag_run_id "~") then
       match scalar
               (filter (fun dr => String.eqb (DagRun.run_id dr) dag_run_id)
                       (dag_run session)) with
       | None =>
           Raise (HTTPException status.HTTP_404_NOT_FOUND
                    (Str ("DagRun with run_id: `" ++ dag_run_id
                          ++ "` was not found")))
       | Some dag_run =>
           Ok (Some dag_run,
               filter (fun ti => String.eqb (TI.run_id ti) dag_run_id) query)
       end
     else Ok (None, query)) ;;
  let '(dag_run, query) := scoped in
  query <-
    (if negb (String.eqb dag_id "~") then
       let dag :=
         match dag_run with
         | Some dr => get_dag_for_run dag_bag (Some dr)
         | None => get_latest_version_of_dag dag_bag dag_id
         end in
       match dag with
       | None =>
           Raise (HTTPException status.HTTP_404_NOT_FOUND
                    (Str ("Dag with dag_id: `" ++ dag_id
                          ++ "` was not found")))
       | Some _ =>
           Ok (filter (fun ti => String.eqb (TI.dag_id ti) dag_id) query)
       end
     else Ok query) ;;
  let '(task_instance_select, total_entries) := paginated_select query page in
  Ok {| task_instances := task_instance_select;
        total_entries := total_entries |}.

(** *** delete_task_instance *)

(** [session.delete(obj)] removes the row that [obj] is.  The object a
    query yields first is the first row of the table that the query
    matches, so deleting it removes that row and no other. *)
Fixpoint delete_first (matches : TI.t -> bool) (rows : list TI.t)
  : list TI.t :=
  match rows with
  | [] => []
  | row :: rows' =>
      if matches row then rows' else row :: delete_first matches rows'
  end.

(** The mapping of [TaskInstanceHistory] (airflow.models.taskinstancehistory)
    is not among the sources: whether deleting a task instance also
    deletes the history rows of its key, by cascade, is a parameter. *)
Definition cascade_delete
    (history_cascade : bool) (k : TIKey) (history : list TIH.t)
  : list TIH.t :=
  if history_cascade then
    filter (fun h => negb (TIKey_eqb (TIHKey.key h) k)) history
  else history.

Definition delete_task_instance
    (history_cascade : bool)
    (dag_id dag_run_id task_id : string) (session : Session) (map_index : Z)
  : Result unit * Session :=
  let matches := fun ti =>
    String.eqb (TI.dag_id ti) dag_id
    && String.eqb (TI.run_id ti) dag_run_id
    && String.eqb (TI.task_id ti) task_id
    && (TI.map_index ti =? map_index) in
  let query := filter matches (task_instance session) in
  match scalar query with
  | None =>
      (Raise (HTTPException status.HTTP_404_NOT_FOUND
                (Str ("The Task Instance with dag_id: `" ++ dag_id
                      ++ "`, run_id: `" ++ dag_run_id
                      ++ "`, task_id: `" ++ task_id
                      ++ "` and map_index: `" ++ str_of_int map_index
                      ++ "` was not found"))),
       session)
  | Some _ =>
      (Ok tt,
       {| task_instance := delete_first matches (task_instance session);
          task_instance_history :=
            cascade_delete history_cascade
              (dag_id, dag_run_id, task_id, map_index)
              (task_instance_history session);
          dag_run := dag_run session |})
  end.

(** ** Further notions and examples *)

Definition try_row_key (row : TryRow) : TIKey :=
  match row with
  | History h => TIHKey.key h
  | Live ti => TI.key ti
  end.

Definition try_row_number (row : TryRow) : Z :=
  match row with
  | History h => TIH.try_number h
  | Live ti => TI.try_number ti
  end.

Definition has_dag_run (session : Session) (ti : TI.t) : Prop :=
  exists dr, In dr (dag_run session) /\ owns dr ti = true.

Module Cases.

(** An installation whose DAG bag knows no DAG. *)
Definition empty_bag : DagBag :=
  {| get_latest_version_of_dag := fun _ => None;
     get_dag_for_run := fun _ => None |}.

(** Two requests scoped to run [r1] that differ in their dates only. *)
Definition clear_r1_dated (a b : option datetime) : ClearTaskInstancesBody :=
  {| dry_run := true; start_date := a; end_date := b;
     only_failed := false; only_running := false; reset_dag_runs := true;
     task_ids := None; dag_run_id := Some "r1";
     include_upstream := false; include_downstream := false;
     include_future := false; include_past := false;
     run_on_latest_version := false |}.

Definition store_without_extract_r1 : Session :=
  {| task_instance := [Example.load_r1_0; Example.extract_r2; Example.load_r2_0];
     task_instance_history := [Example.extract_r2_try1];
     dag_run := [Example.r1; Example.r2] |}.

Definition r1_listing : TaskInstanceCollectionResponse :=
  {| task_instances := [Example.extract_r1; Example.load_r1_0];
     total_entries := 2 |}.

End Cases.

(** A row that the inner join with the dag runs keeps. *)
Definition joined (session : Session) (ti : TI.t) : bool :=
  existsb (fun dr => owns dr ti) (dag_run session).

(** The rows of a key that carry a given try number. *)
Definition live_try (k : TIKey) (n : Z) (ti : TI.t) : bool :=
  by_key k ti && (TI.try_number ti =? n).

Definition history_try (k : TIKey) (n : Z) (h : TIH.t) : bool :=
  TIKey_eqb (TIHKey.key h) k && (TIH.try_number h =? n).

(** The rows that [get_task_instance_tries] lists. *)
Definition listed_tries (k : TIKey) (session : Session) : list TryRow :=
  (map History
     (filter (fun h => TIKey_eqb (TIHKey.key h) k)
             (task_instance_history session))
   ++ map Live
        (filter (fun ti => TIKey_eqb (TI.key ti) k && listed_live ti)
                (task_instance session)))%list.


(** * Properties *)

(** ** Lists, keys and results *)

Lemma filter_filter_and {A : Type} (f g : A -> bool) (l : list A) :
  filter g (filter f l) = filter (fun x => f x && g x) l.
Proof.
  induction l as [|x l IH]; simpl; [reflexivity|].
  destruct (f x); simpl; [destruct (g x)|]; rewrite IH; reflexivity.
Qed.

Lemma TIKey_eqb_eq (a b : TIKey) : TIKey_eqb a b = true <-> a = b.
Proof.
  destruct a as [[[d1 r1] t1] m1], b as [[[d2 r2] t2] m2]; simpl.
  rewrite !andb_true_iff, !String.eqb_eq, Z.eqb_eq.
  split.
  - intros [[[-> ->] ->] ->]; reflexivity.
  - intros H; injection H as -> -> -> ->; auto.
Qed.

Lemma TIKey_eqb_refl (a : TIKey) : TIKey_eqb a a = true.
Proof. apply TIKey_eqb_eq; reflexivity. Qed.

(** ** Sorting *)

Section SortedBy.

Context {A : Type} (le : A -> A -> bool).

Let R := holds_true le.

Hypothesis le_total : forall x y, le x y = true \/ le y x = true.
Hypothesis le_trans :
  forall x y z, le x y = true -> le y z = true -> le x z = true.

Lemma insert_by_perm (x : A) (l : list A) :
  Permutation (x :: l) (insert_by le x l).
Proof.
  induction l as [|y l IH]; simpl; [apply Permutation_refl|].
  destruct (le x y); [apply Permutation_refl|].
  eapply perm_trans; [apply perm_swap|].
  apply perm_skip, IH.
Qed.

Lemma sorted_perm (l : list A) : Permutation l (sorted le l).
Proof.
  induction l as [|x l IH]; simpl; [constructor|].
  eapply perm_trans; [apply perm_skip, IH|].
  apply insert_by_perm.
Qed.

Lemma insert_by_sorted (x : A) (l : list A) :
  StronglySorted R l -> StronglySorted R (insert_by le x l).
Proof.
  induction 1 as [|y l Hs IH Hy]; simpl.
  - constructor; constructor.
  - destruct (le x y) eqn:Hxy.
    + constructor; [constructor; assumption|].
      constructor; [exact Hxy|].
      eapply Forall_impl; [|exact Hy].
      intros z Hz; exact (le_trans _ _ _ Hxy Hz).
    + assert (Hyx : le y x = true)
        by (destruct (le_total x y) as [H|H]; [congruence|exact H]).
      constructor; [exact IH|].
      eapply Permutation_Forall; [apply insert_by_perm|].
      constructor; assumption.
Qed.

Lemma sorted_is_sorted (l : list A) : StronglySorted R (sorted le l).
Proof.
  induction l as [|x l IH]; simpl; [constructor|].
  apply insert_by_sorted, IH.
Qed.

End SortedBy.

(** ** The order on names *)

Lemma compare_not_Gt_trans (a b c : string) :
  String.compare a b <> Gt -> String.compare b c <> Gt ->
  String.compare a c <> Gt.
Proof.
  revert b c.
  induction a as [|x a IH]; intros [|y b] [|z c]; simpl; try congruence.
  unfold Ascii.compare.
  destruct (N.compare_spec (N_of_ascii x) (N_of_ascii y)) as [Exy|Lxy|Gxy];
    [| |congruence];
    (destruct (N.compare_spec (N_of_ascii y) (N_of_ascii z)) as [Eyz|Lyz|Gyz];
     [| |congruence]); intros Hab Hbc.
  - rewrite Exy, Eyz, N.compare_refl. eapply IH; eassumption.
  - rewrite Exy. apply N.compare_lt_iff in Lyz. rewrite Lyz. discriminate.
  - rewrite <- Eyz. apply N.compare_lt_iff in Lxy. rewrite Lxy. discriminate.
  - assert (L : (N_of_ascii x < N_of_ascii z)%N) by (eapply N.lt_trans; eassumption).
    apply N.compare_lt_iff in L. rewrite L. discriminate.
Qed.

Lemma string_leb_iff (a b : string) :
  String.leb a b = true <-> String.compare a b <> Gt.
Proof.
  unfold String.leb. destruct (String.compare a b); split; congruence.
Qed.

Lemma string_leb_trans (a b c : string) :
  String.leb a b = true -> String.leb b c = true -> String.leb a c = true.
Proof.
  rewrite !string_leb_iff. apply compare_not_Gt_trans.
Qed.

Lemma ascending_unique (l l' : list string) :
  StronglySorted ascending l -> StronglySorted ascending l' ->
  Permutation l l' -> l = l'.
Proof.
  intros Hl; revert l'.
  induction Hl as [|a l Hs IH Ha]; intros l' Hl' P.
  - apply Permutation_nil in P; congruence.
  - destruct l' as [|b l'].
    + apply Permutation_sym, Permutation_nil in P; discriminate.
    + inversion Hl' as [|? ? Hs' Hb]; subst.
      assert (a = b) as <-.
      { assert (Ia : In a (b :: l'))
          by (eapply Permutation_in; [exact P|left; reflexivity]).
        assert (Ib : In b (a :: l))
          by (eapply Permutation_in;
              [apply Permutation_sym, P|left; reflexivity]).
        destruct Ia as [->|Ia]; [reflexivity|].
        destruct Ib as [->|Ib]; [reflexivity|].
        rewrite Forall_forall in Ha, Hb.
        apply String.leb_antisym; [apply Ha, Ib|apply Hb, Ia]. }
      f_equal. apply IH; [exact Hs'|].
      eapply Permutation_cons_inv; exact P.
Qed.

Lemma name_ordered_names (l : list DependencyStatus) :
  StronglySorted name_ordered l -> StronglySorted ascending (map name l).
Proof.
  induction 1 as [|x l Hs IH Hx]; simpl; constructor; [exact IH|].
  apply Forall_map. exact Hx.
Qed.

Lemma sorted_name_le_sorted (l : list DependencyStatus) :
  StronglySorted name_ordered (sorted name_le l).
Proof.
  apply (sorted_is_sorted name_le).
  - intros x y; apply String.leb_total.
  - intros x y z; apply string_leb_trans.
Qed.

(** Sorting two lists with the same elements gives the same sequence of
    names. *)
Lemma sorted_names_perm (l l' : list DependencyStatus) :
  Permutation l l' ->
  map name (sorted name_le l) = map name (sorted name_le l').
Proof.
  intros P.
  apply ascending_unique;
    try (apply name_ordered_names, sorted_name_le_sorted).
  apply Permutation_map.
  eapply perm_trans; [apply Permutation_sym, sorted_perm|].
  eapply perm_trans; [exact P|apply sorted_perm].
Qed.

Lemma same_names_eq (l l' : list DependencyStatus) :
  Permutation l l' -> map name l = map name l' -> NoDup (map name l) ->
  l = l'.
Proof.
  revert l'.
  induction l as [|a l IH]; intros l' P E N.
  - apply Permutation_nil in P; congruence.
  - destruct l' as [|b l'].
    + apply Permutation_sym, Permutation_nil in P; discriminate.
    + simpl in E; injection E as Eab El.
      inversion N as [|? ? Hnot N']; subst.
      assert (a = b) as <-.
      { assert (Ia : In a (b :: l'))
          by (eapply Permutation_in; [exact P|left; reflexivity]).
        destruct Ia as [->|Ia]; [reflexivity|].
        exfalso; apply Hnot. rewrite El. apply in_map, Ia. }
      f_equal. apply IH; [|exact El|exact N'].
      eapply Permutation_cons_inv; exact P.
Qed.

(** ** Lookups *)

Lemma join_dag_run_In (session : Session) (rows : list TI.t) (ti : TI.t) :
  In ti (join_dag_run session rows) -> In ti rows.
Proof.
  unfold join_dag_run. rewrite in_flat_map.
  intros (x & Hx & Hin). apply in_map_iff in Hin.
  destruct Hin as (dr & <- & _). exact Hx.
Qed.

Lemma scalar_In {A : Type} (rows : list A) (x : A) :
  scalar rows = Some x -> In x rows.
Proof. destruct rows; simpl; [discriminate|]. intros [= ->]; left; reflexivity. Qed.

(** C9: through [get_task_instance], a live row that matches
    (dag_id, run_id, task_id) but whose map_index is not -1 gives NotFound,
    with the message that the task instance is mapped, although a matching
    row exists; the task instance is returned exactly when the row the
    query selects has map_index -1. *)
Theorem get_task_instance_requires_unmapped :
  forall (dag_id dag_run_id task_id : string) (session : Session),
    let row := scalar (get_task_instance_query dag_id dag_run_id task_id session) in
    let result := get_task_instance dag_id dag_run_id task_id session in
    (forall ti, row = Some ti ->
       In ti (task_instance session)
       /\ TI.dag_id ti = dag_id /\ TI.run_id ti = dag_run_id
       /\ TI.task_id ti = task_id)
    /\ (forall ti, row = Some ti -> TI.map_index ti <> -1 ->
          result = Raise (HTTPException status.HTTP_404_NOT_FOUND
                            (Str "Task instance is mapped, add the map_index value to the URL"))
          /\ exists e, result = Raise e /\ NotFound e)
    /\ (forall ti, result = Ok ti <-> row = Some ti /\ TI.map_index ti = -1).
Proof.
  intros dag_id dag_run_id task_id session row result.
  subst result; unfold get_task_instance; fold row.
  repeat split.
  - apply scalar_In, join_dag_run_In, filter_In in H. tauto.
  - apply scalar_In, join_dag_run_In, filter_In in H.
    destruct H as [_ H]. rewrite !andb_true_iff, !String.eqb_eq in H. tauto.
  - apply scalar_In, join_dag_run_In, filter_In in H.
    destruct H as [_ H]. rewrite !andb_true_iff, !String.eqb_eq in H. tauto.
  - apply scalar_In, join_dag_run_In, filter_In in H.
    destruct H as [_ H]. rewrite !andb_true_iff, !String.eqb_eq in H. tauto.
  - rewrite H. apply Z.eqb_neq in H0. rewrite H0. reflexivity.
  - rewrite H. apply Z.eqb_neq in H0. rewrite H0. simpl.
    eexists; split; [reflexivity|]. eexists; reflexivity.
  - destruct row as [t|]; [|discriminate].
    destruct (TI.map_index t =? -1); simpl in H; [|discriminate].
    injection H as ->; reflexivity.
  - destruct row as [t|]; [|discriminate].
    destruct (TI.map_index t =? -1) eqn:E; simpl in H; [|discriminate].
    injection H as <-. apply Z.eqb_eq, E.
  - intros [-> Hm]. apply Z.eqb_eq in Hm. rewrite Hm. reflexivity.
Qed.

Lemma get_task_instance_requires_unmapped_witness :
  get_task_instance "etl" "r1" "load" Example.store
  = Raise (HTTPException status.HTTP_404_NOT_FOUND
             (Str "Task instance is mapped, add the map_index value to the URL")).
Proof.
  apply (proj1 (proj2 (get_task_instance_requires_unmapped
                         "etl" "r1" "load" Example.store)))
    with (ti := Example.load_r1_0).
  - reflexivity.
  - simpl; lia.
Defined.

Lemma not_up_for_retry_listed (ti : TI.t) : not_up_for_retry ti = listed_live ti.
Proof.
  unfold not_up_for_retry, listed_live.
  destruct (TI.state ti) as [[]|]; reflexivity.
Qed.

(** C10: the tries of a composite key are all its history rows followed
    by its live rows other than those in state [up_for_retry] (a live row
    without a state is kept); the route fails with NotFound exactly when
    this combined collection is empty. *)
Theorem tries_are_history_then_live :
  forall (dag_id dag_run_id task_id : string) (session : Session)
         (map_index : Z),
    let k : TIKey := (dag_id, dag_run_id, task_id, map_index) in
    let combined :=
      (map History
         (filter (fun h => TIKey_eqb (TIHKey.key h) k)
                 (task_instance_history session))
       ++ map Live
            (filter (fun ti => TIKey_eqb (TI.key ti) k && listed_live ti)
                    (task_instance session)))%list in
    let result :=
      get_task_instance_tries dag_id dag_run_id task_id session map_index in
    (combined <> [] ->
       result = Ok {| tries_task_instances := combined;
                      tries_total_entries := List.length combined |})
    /\ (combined = [] -> exists e, result = Raise e /\ NotFound e)
    /\ (forall e, result = Raise e -> combined = []).
Proof.
  intros dag_id dag_run_id task_id session map_index k combined result.
  assert (E : result =
              match combined with
              | [] =>
                  Raise (HTTPException status.HTTP_404_NOT_FOUND
                           (Str ("The Task Instance with dag_id: `" ++ dag_id
                                 ++ "`, run_id: `" ++ dag_run_id
                                 ++ "`, task_id: `" ++ task_id
                                 ++ "` and map_index: `" ++ str_of_int map_index
                                 ++ "` was not found")))
              | _ :: _ =>
                  Ok {| tries_task_instances := combined;
                        tries_total_entries := List.length combined |}
              end).
  { subst result combined; unfold get_task_instance_tries.
    unfold tries_query_TI, tries_query_TIH.
    rewrite filter_filter_and.
    rewrite (filter_ext
               (fun x => _ && not_up_for_retry x)
               (fun ti => TIKey_eqb (TI.key ti) k && listed_live ti))
      by (intros ti; rewrite not_up_for_retry_listed; reflexivity).
    reflexivity. }
  rewrite E; clear E.
  destruct combined as [|x l]; repeat split; try congruence.
  intros _. eexists; split; [reflexivity|]. eexists; reflexivity.
Qed.

Lemma tries_are_history_then_live_witness :
  get_task_instance_tries "etl" "r2" "extract" Example.store (-1)
  = Ok {| tries_task_instances :=
            [History Example.extract_r2_try1; Live Example.extract_r2];
          tries_total_entries := 2 |}.
Proof.
  apply (proj1 (tries_are_history_then_live
                  "etl" "r2" "extract" Example.store (-1))).
  vm_compute; discriminate.
Defined.

(** ** Dependencies *)

Lemma dependencies_query_by_key
    (dag_id dag_run_id task_id : string) (map_index : Z) (rows : list TI.t) :
  filter (fun ti => TI.map_index ti =? map_index)
    (filter
       (fun ti => String.eqb (TI.dag_id ti) dag_id
                  && String.eqb (TI.run_id ti) dag_run_id
                  && String.eqb (TI.task_id ti) task_id)
       rows)
  = filter (by_key (dag_id, dag_run_id, task_id, map_index)) rows.
Proof. rewrite filter_filter_and. reflexivity. Qed.

Lemma is_none_or_scheduled_iff (state : option TaskInstanceState.t) :
  is_none_or_scheduled state = true
  <-> state = None \/ state = Some TaskInstanceState.SCHEDULED.
Proof.
  destruct state as [[]|]; simpl; split; intros H;
    try discriminate; auto; destruct H; congruence.
Qed.

(** C4: for a task instance whose state is neither [none] nor
    [scheduled], [get_task_instance_dependencies] returns the empty
    dependency list and evaluates no policy; a policy is evaluated only
    when the state is [none] or [scheduled]. *)
Theorem dependencies_short_circuit :
  forall (deps : list Dep) (dag_id dag_run_id task_id : string)
         (session : Session) (dag_bag : DagBag) (map_index : Z),
    let found :=
      filter (by_key (dag_id, dag_run_id, task_id, map_index))
             (task_instance session) in
    let run :=
      get_task_instance_dependencies deps dag_id dag_run_id task_id
        session dag_bag map_index in
    (forall ti, found = [ti] ->
       TI.state ti <> None ->
       TI.state ti <> Some TaskInstanceState.SCHEDULED ->
       run = (Ok {| dependencies := [] |}, []))
    /\ (snd run <> [] ->
        exists ti, found = [ti]
                   /\ (TI.state ti = None
                       \/ TI.state ti = Some TaskInstanceState.SCHEDULED)).
Proof.
  intros deps dag_id dag_run_id task_id session dag_bag map_index found run.
  subst run; unfold get_task_instance_dependencies.
  rewrite dependencies_query_by_key; fold found.
  split.
  - intros ti -> Hn Hs. simpl.
    destruct (is_none_or_scheduled (TI.state ti)) eqn:E; [|reflexivity].
    apply is_none_or_scheduled_iff in E; tauto.
  - destruct found as [|ti [|ti' rest]]; simpl; try congruence.
    destruct (is_none_or_scheduled (TI.state ti)) eqn:E;
      [|simpl; congruence].
    intros _. exists ti; split; [reflexivity|].
    apply is_none_or_scheduled_iff, E.
Qed.

Lemma dependencies_short_circuit_witness :
  get_task_instance_dependencies
    [Example.pool_slots; Example.dag_unpaused]
    "etl" "r1" "extract" Example.store Example.bag (-1)
  = (Ok {| dependencies := [] |}, []).
Proof.
  apply (proj1 (dependencies_short_circuit
                  [Example.pool_slots; Example.dag_unpaused]
                  "etl" "r1" "extract" Example.store Example.bag (-1)))
    with (ti := Example.extract_r1).
  - reflexivity.
  - simpl; discriminate.
  - simpl; discriminate.
Defined.

Lemma failed_names_incl (ti : TI.t) (task : Task) (session : Session)
    (deps : list Dep) (n : string) :
  In n (map name (map to_status (flat_map (failed_of ti task session) deps))) ->
  In n (map dep_name deps).
Proof.
  induction deps as [|d deps IH]; simpl; [tauto|].
  rewrite !map_app, in_app_iff. intros [H|H]; [|right; apply IH, H].
  left. unfold failed_of in H.
  destruct (failing_reason d ti task session); simpl in H; [|tauto].
  destruct H as [H|[]]. exact H.
Qed.

Lemma failed_names_NoDup (ti : TI.t) (task : Task) (session : Session)
    (deps : list Dep) :
  NoDup (map dep_name deps) ->
  NoDup (map name (map to_status (flat_map (failed_of ti task session) deps))).
Proof.
  induction deps as [|d deps IH]; simpl; intros N; [constructor|].
  inversion N as [|? ? Hnot N']; subst.
  rewrite !map_app. unfold failed_of at 1.
  destruct (failing_reason d ti task session); simpl; [|apply IH, N'].
  constructor; [|apply IH, N'].
  intros H; apply Hnot. eapply failed_names_incl; exact H.
Qed.

(** C5: the dependency statuses that [get_task_instance_dependencies]
    returns are in ascending order of name.  The order of the names does
    not depend on the order in which the policies are evaluated; when the
    policies have distinct names, neither does the whole response. *)
Theorem dependencies_sorted_by_name :
  forall (deps : list Dep) (dag_id dag_run_id task_id : string)
         (session : Session) (dag_bag : DagBag) (map_index : Z)
         (response : TaskDependencyCollectionResponse)
         (evaluated : list string),
    get_task_instance_dependencies deps dag_id dag_run_id task_id
      session dag_bag map_index = (Ok response, evaluated) ->
    StronglySorted name_ordered (dependencies response)
    /\ forall deps', Permutation deps deps' ->
         exists response' evaluated',
           get_task_instance_dependencies deps' dag_id dag_run_id task_id
             session dag_bag map_index = (Ok response', evaluated')
           /\ map name (dependencies response')
              = map name (dependencies response)
           /\ (NoDup (map dep_name deps) -> response' = response).
Proof.
  intros deps dag_id dag_run_id task_id session dag_bag map_index
         response evaluated.
  unfold get_task_instance_dependencies.
  destruct (one_or_none _) as [[ti|]|e]; simpl; try discriminate.
  destruct (is_none_or_scheduled (TI.state ti)).
  2:{ intros [= <- <-]; split; [constructor|].
      intros deps' _. do 2 eexists. repeat split. }
  destruct (get_dag_for_run dag_bag _) as [dag|].
  2:{ intros [= <- <-]; split; [constructor|].
      intros deps' _. do 2 eexists. repeat split. }
  destruct (get_task dag (TI.task_id ti)) as [task|[]]; simpl;
    try discriminate.
  2:{ intros [= <- <-]; split; [constructor|].
      intros deps' _. do 2 eexists. repeat split. }
  intros [= <- <-]; simpl. split; [apply sorted_name_le_sorted|].
  intros deps' P. do 2 eexists. split; [reflexivity|]. simpl.
  assert (P' : Permutation
                 (map to_status (flat_map (failed_of ti task session) deps'))
                 (map to_status (flat_map (failed_of ti task session) deps)))
    by (apply Permutation_map, Permutation_flat_map, Permutation_sym, P).
  split; [apply sorted_names_perm, P'|].
  intros N. f_equal.
  apply same_names_eq.
  - eapply perm_trans; [apply Permutation_sym, sorted_perm|].
    eapply perm_trans; [exact P'|apply sorted_perm].
  - apply sorted_names_perm, P'.
  - eapply Permutation_NoDup;
      [apply Permutation_map, sorted_perm|].
    eapply Permutation_NoDup;
      [apply Permutation_map, Permutation_sym, P'|].
    apply failed_names_NoDup, N.
Qed.

Lemma dependencies_sorted_by_name_witness :
  StronglySorted name_ordered
    [ {| name := "Dag Not Paused"; reason := "the dag is paused" |};
      {| name := "Pool Slots Available"; reason := "no open slots" |} ].
Proof.
  apply (proj1 (dependencies_sorted_by_name
                  [Example.pool_slots; Example.dag_unpaused]
                  "etl" "r2" "load" Example.store Example.bag 0
                  {| dependencies :=
                       [ {| name := "Dag Not Paused";
                            reason := "the dag is paused" |};
                         {| name := "Pool Slots Available";
                            reason := "no open slots" |} ] |}
                  ["Pool Slots Available"; "Dag Not Paused"]
                  eq_refl)).
Defined.

(** ** Mapped task instances *)

Lemma get_task_missing (dag : DAG) (task_id : string) :
  ~ In task_id (map fst (task_dict dag)) ->
  get_task dag task_id = Raise TaskNotFound.
Proof.
  intros H. unfold get_task.
  destruct (find _ (task_dict dag)) as [kv|] eqn:E; [|reflexivity].
  apply find_some in E. destruct E as [Hin Heq].
  apply String.eqb_eq in Heq. exfalso; apply H.
  rewrite <- Heq. apply in_map, Hin.
Qed.

Lemma paginated_select_nil (page : Page) : paginated_select [] page = ([], 0%nat).
Proof.
  unfold paginated_select; simpl.
  rewrite skipn_nil, firstn_nil. reflexivity.
Qed.

(** C3: when the query for mapped task instances finds no row, the task
    definition of the resolved DAG decides: a task id that the DAG does
    not have gives the TaskNotFound error, a task that declares no
    expansion gives the NotMappedTask error, and a task that declares
    expansion gives the empty collection, not an error. *)
Theorem mapped_listing_without_rows :
  forall (dag_id dag_run_id task_id : string) (dag_bag : DagBag)
         (page : Page) (session : Session) (dag : DAG),
    get_mapped_task_instances_query dag_id dag_run_id task_id session = [] ->
    resolved_dag dag_bag session dag_id dag_run_id = Some dag ->
    let result :=
      get_mapped_task_instances dag_id dag_run_id task_id dag_bag page
        session in
    (~ In task_id (map fst (task_dict dag)) ->
       result = Raise (HTTPException status.HTTP_404_NOT_FOUND
                         (Str ("Task id " ++ task_id ++ " not found"))))
    /\ (forall task, get_task dag task_id = Ok task ->
          get_needs_expansion task = false ->
          result = Raise (HTTPException status.HTTP_404_NOT_FOUND
                            (Str ("Task id " ++ task_id ++ " is not mapped"))))
    /\ (forall task, get_task dag task_id = Ok task ->
          get_needs_expansion task = true ->
          result = Ok {| task_instances := []; total_entries := 0 |}).
Proof.
  intros dag_id dag_run_id task_id dag_bag page session dag Hq Hdag result.
  subst result; unfold get_mapped_task_instances.
  rewrite Hq, paginated_select_nil.
  change (List.length (@nil TI.t)) with 0%nat; cbn [Nat.eqb].
  unfold resolved_dag in Hdag.
  assert (E : match scalar (select_dag_run session dag_id dag_run_id) with
              | Some dr => get_dag_for_run dag_bag (Some dr)
              | None => get_latest_version_of_dag dag_bag dag_id
              end = Some dag) by exact Hdag.
  rewrite E; clear E.
  repeat split.
  - intros H. rewrite (get_task_missing _ _ H). reflexivity.
  - intros task -> ->. reflexivity.
  - intros task -> ->. reflexivity.
Qed.

Lemma mapped_listing_without_rows_witness :
  get_mapped_task_instances "etl" "r3" "load" Example.bag
    Example.by_map_index Example.store
  = Ok {| task_instances := []; total_entries := 0 |}.
Proof.
  apply (proj2 (proj2 (mapped_listing_without_rows
                         "etl" "r3" "load" Example.bag Example.by_map_index
                         Example.store Example.etl eq_refl eq_refl)))
    with (task := Example.load); reflexivity.
Defined.

(** ** Clearing *)

Lemma mem_string_In (x : string) (l : list string) :
  mem_string x l = true <-> In x l.
Proof.
  unfold mem_string. rewrite existsb_exists. split.
  - intros (y & Hy & E). apply String.eqb_eq in E. subst; exact Hy.
  - intros H. exists x; split; [exact H|apply String.eqb_refl].
Qed.

Lemma in_window_falls_in (lo hi d : option datetime) :
  in_window lo hi d = true <-> falls_in lo hi d.
Proof.
  unfold in_window, falls_in. rewrite andb_true_iff.
  destruct lo as [l|], hi as [h|], d as [x|];
    rewrite ?Z.leb_le; split; intros [H1 H2];
    repeat split; try reflexivity; try discriminate;
    try (intros ? [= <-]; eexists; split; [reflexivity|assumption]);
    try (destruct (H1 _ eq_refl) as (? & [= <-] & ?); assumption);
    try (destruct (H2 _ eq_refl) as (? & [= <-] & ?); assumption);
    try (destruct (H1 _ eq_refl) as (? & ? & ?); discriminate);
    try (destruct (H2 _ eq_refl) as (? & ? & ?); discriminate).
Qed.

Lemma is_affected_In (tis : list TI.t) (row : TI.t) :
  is_affected tis row = true <-> In (TI.key row) (map TI.key tis).
Proof.
  unfold is_affected. rewrite existsb_exists, in_map_iff. split.
  - intros (ti & Hin & E). apply TIKey_eqb_eq in E. eauto.
  - intros (ti & E & Hin). exists ti; split; [exact Hin|].
    apply TIKey_eqb_eq, E.
Qed.

Lemma NoDup_key_inj (rows : list TI.t) :
  NoDup (map TI.key rows) ->
  forall a b, In a rows -> In b rows -> TI.key a = TI.key b -> a = b.
Proof.
  induction rows as [|r rows IH]; simpl; intros N a b Ha Hb E; [tauto|].
  inversion N as [|? ? Hnot N']; subst.
  destruct Ha as [<-|Ha], Hb as [<-|Hb]; try reflexivity.
  - exfalso; apply Hnot. rewrite E. apply in_map, Hb.
  - exfalso; apply Hnot. rewrite <- E. apply in_map, Ha.
  - apply IH; assumption.
Qed.

Lemma state_eqb_eq (a b : TaskInstanceState.t) :
  TaskInstanceState.eqb a b = true <-> a = b.
Proof. destruct a, b; simpl; split; congruence. Qed.

Lemma Forall2_map_right {A B : Type} (R : A -> B -> Prop) (f : A -> B)
    (l : list A) :
  (forall x, In x l -> R x (f x)) -> Forall2 R l (map f l).
Proof.
  induction l as [|x l IH]; simpl; intros H; constructor.
  - apply H; left; reflexivity.
  - apply IH. intros y Hy; apply H; right; exact Hy.
Qed.

Lemma in_scope_in_scope_of
    (session : Session) (dag : DAG) (scope : Scope) (ti : TI.t) :
  (TI.dag_id ti = dag_dag_id dag /\ in_scope session scope ti = true)
  <-> in_scope_of session dag scope ti.
Proof.
  unfold in_scope_of. destruct scope as [run_id|lo hi]; cbn.
  - rewrite String.eqb_eq. tauto.
  - rewrite existsb_exists. split.
    + intros [Hd (dr & Hin & H)]. apply andb_true_iff in H.
      destruct H as [Ho Hw]. split; [exact Hd|].
      exists dr. rewrite <- in_window_falls_in. auto.
    + intros [Hd (dr & Hin & Ho & Hw)]. split; [exact Hd|].
      exists dr; split; [exact Hin|].
      apply andb_true_iff. rewrite in_window_falls_in. auto.
Qed.

Section AffectedSet.

Variable failed_equivalent : TaskInstanceState.t -> bool.
Variable running_equivalent : TaskInstanceState.t -> bool.

Lemma select_affected_In
    (dag : DAG) (session : Session) (refs : option (list TaskRef))
    (scope : Scope) (accept : option TaskInstanceState.t -> bool) (ti : TI.t) :
  In ti (select_affected dag session refs scope accept)
  <-> In ti (task_instance session)
      /\ in_scope_of session dag scope ti
      /\ within_task_subset dag refs ti
      /\ accept (TI.state ti) = true.
Proof.
  unfold select_affected. rewrite filter_In, !andb_true_iff.
  rewrite <- in_scope_in_scope_of, String.eqb_eq.
  assert (R : match refs with
              | Some l =>
                  mem_string (TI.task_id ti) (map fst (task_dict dag))
                  && existsb (ref_matches ti) l
              | None => true
              end = true
              <-> within_task_subset dag refs ti).
  { unfold within_task_subset. destruct refs as [l|].
    - rewrite andb_true_iff, mem_string_In, existsb_exists. split.
      + intros H l' [= <-]; exact H.
      + intros H; exact (H l eq_refl).
    - split; [discriminate|reflexivity]. }
  rewrite R. tauto.
Qed.

Lemma in_states_failed (state : option TaskInstanceState.t) :
  in_states (failed_like failed_equivalent) state = true
  <-> exists s, state = Some s
                /\ (s = TaskInstanceState.FAILED \/ failed_equivalent s = true).
Proof.
  unfold in_states, failed_like. destruct state as [s|].
  - rewrite orb_true_iff, state_eqb_eq. split.
    + intros H; exists s; auto.
    + intros (s' & [= <-] & H); exact H.
  - split; [discriminate|intros (s & [=] & _)].
Qed.

Lemma in_states_running (state : option TaskInstanceState.t) :
  in_states (running_like running_equivalent) state = true
  <-> exists s, state = Some s
                /\ (s = TaskInstanceState.RUNNING
                    \/ running_equivalent s = true).
Proof.
  unfold in_states, running_like. destruct state as [s|].
  - rewrite orb_true_iff, state_eqb_eq. split.
    + intros H; exists s; auto.
    + intros (s' & [= <-] & H); exact H.
  - split; [discriminate|intros (s & [=] & _)].
Qed.

(** What [DAG.clear] answers when the two state filters are not both
    set: a sub-list of the live rows, the rows in scope, within the task
    subset and the state filters. *)
Lemma dag_clear_affected
    (dag : DAG) (session : Session) (refs : option (list TaskRef))
    (body : ClearTaskInstancesBody) (scope : Scope) :
  only_failed body && only_running body = false ->
  exists tis,
    dag_clear failed_equivalent running_equivalent dag session refs
      (only_failed body) (only_running body) scope = Ok tis
    /\ (exists keep, tis = filter keep (task_instance session))
    /\ forall ti,
         In ti tis
         <-> In ti (task_instance session)
             /\ in_scope_of session dag scope ti
             /\ within_task_subset dag refs ti
             /\ passes_state_filters failed_equivalent running_equivalent
                  body ti.
Proof.
  unfold dag_clear, passes_state_filters.
  destruct (only_failed body), (only_running body); try discriminate;
    intros _; eexists; (split; [reflexivity|]);
    (split; [eexists; reflexivity|]); intros ti;
    rewrite select_affected_In.
  - rewrite in_states_failed. intuition congruence.
  - rewrite in_states_running. intuition congruence.
  - intuition congruence.
Qed.

Lemma dag_clear_both
    (dag : DAG) (session : Session) (refs : option (list TaskRef))
    (body : ClearTaskInstancesBody) (scope : Scope) :
  only_failed body = true -> only_running body = true ->
  dag_clear failed_equivalent running_equivalent dag session refs
    (only_failed body) (only_running body) scope
  = Raise (HTTPException status.HTTP_400_BAD_REQUEST
             (Str "only_failed and only_running are mutually exclusive")).
Proof. intros -> ->. reflexivity. Qed.

(** The route on a request that resolves: [DAG.clear] on the sub-DAG and
    the task references of the request, then, unless [dry_run] is set, the
    mutation of what it returned. *)
Lemma post_clear_resolved
    (dag_id : string) (dag_bag : DagBag) (body : ClearTaskInstancesBody)
    (session : Session) (dag : DAG) (scope : Scope) :
  Resolves dag_bag session dag_id body dag scope ->
  post_clear_task_instances failed_equivalent running_equivalent
    dag_id dag_bag body session
  = match dag_clear failed_equivalent running_equivalent
            (fst (effective_subset dag body)) session
            (snd (effective_subset dag body))
            (only_failed body) (only_running body) scope with
    | Raise e => (Raise e, session)
    | Ok tis =>
        if dry_run body then
          (Ok {| task_instances := tis; total_entries := List.length tis |},
           session)
        else
          let '(tis', session') :=
            clear_task_instances tis session
              (if reset_dag_runs body then Some DagRunState.QUEUED else None)
              (run_on_latest_version body) in
          (Ok {| task_instances := tis';
                 total_entries := List.length tis' |},
           session')
    end.
Proof.
  intros H. unfold post_clear_task_instances, effective_subset,
    lower_bound, upper_bound in *.
  destruct H as [run_id latest dag run Hrun Hlatest Hr Hdag Hp Hf
                |dag Hrun Hlatest];
    rewrite Hlatest, Hrun.
  - rewrite Hr, Hdag, Hp, Hf.
    destruct body as [dry st en onf onr rdr tids rid up down fut past rolv].
    cbn -[dag_clear clear_task_instances partial_subset] in *.
    destruct tids as [tids|];
      cbn -[dag_clear clear_task_instances partial_subset];
      destruct (dag_clear _ _ _ _ _ _ _ _) as [tis|e];
      try reflexivity; destruct dry; reflexivity.
  - destruct body as [dry st en onf onr rdr tids rid up down fut past rolv].
    cbn -[dag_clear clear_task_instances partial_subset] in *.
    destruct past, fut;
      cbn -[dag_clear clear_task_instances partial_subset];
      destruct tids as [tids|];
      cbn -[dag_clear clear_task_instances partial_subset];
      destruct (dag_clear _ _ _ _ _ _ _ _) as [tis|e];
      try reflexivity; destruct dry; reflexivity.
Qed.

Lemma Resolves_with_dry_run
    (b : bool) (dag_id : string) (dag_bag : DagBag)
    (body : ClearTaskInstancesBody) (session : Session) (dag : DAG)
    (scope : Scope) :
  Resolves dag_bag session dag_id body dag scope ->
  Resolves dag_bag session dag_id (with_dry_run b body) dag scope.
Proof.
  intros [run_id latest dag' run Hrun Hlatest Hr Hdag Hp Hf
         |dag' Hrun Hlatest].
  - eapply resolves_run; eassumption.
  - exact (resolves_dates dag_bag session dag_id (with_dry_run b body) dag'
             Hrun Hlatest).
Qed.

(** A request on which the route succeeds resolves, and does not set
    both state filters. *)
Lemma post_clear_Ok_resolves
    (dag_id : string) (dag_bag : DagBag) (body : ClearTaskInstancesBody)
    (session session' : Session) (response : TaskInstanceCollectionResponse) :
  post_clear_task_instances failed_equivalent running_equivalent
    dag_id dag_bag body session = (Ok response, session') ->
  (exists dag scope, Resolves dag_bag session dag_id body dag scope)
  /\ only_failed body && only_running body = false.
Proof.
  unfold post_clear_task_instances.
  destruct (get_latest_version_of_dag dag_bag dag_id) as [latest|] eqn:Hl;
    [|discriminate].
  destruct (dag_run_id body) as [rid|] eqn:Hrid.
  - destruct (scalar (select_dag_run session dag_id rid)) as [dr|] eqn:Hdr;
      [|discriminate].
    destruct (get_dag_for_run dag_bag (Some dr)) as [dag|] eqn:Hdag;
      [|discriminate].
    destruct (include_past body) eqn:Hp; [discriminate|].
    destruct (include_future body) eqn:Hf; [discriminate|].
    cbn -[dag_clear clear_task_instances partial_subset].
    intros H. split.
    + exists dag, (ByRunId rid). eapply resolves_run; eassumption.
    + destruct (only_failed body), (only_running body); try reflexivity.
      exfalso. revert H.
      destruct (task_ids _); cbn -[clear_task_instances partial_subset];
        discriminate.
  - intros H. split.
    + exists latest. eexists. apply resolves_dates; assumption.
    + destruct (only_failed body) eqn:Ho, (only_running body) eqn:Hr;
        try reflexivity.
      exfalso. revert H. cbv zeta.
      destruct (include_past body), (include_future body);
        cbn -[clear_task_instances partial_subset];
        rewrite ?Ho, ?Hr;
        destruct (task_ids body);
        cbn -[clear_task_instances partial_subset];
        rewrite ?Ho, ?Hr; cbn; discriminate.
Qed.

End AffectedSet.

Section ClearingProperties.

Variable failed_equivalent : TaskInstanceState.t -> bool.
Variable running_equivalent : TaskInstanceState.t -> bool.

Lemma preview_snd
    (dag_id : string) (dag_bag : DagBag) (body : ClearTaskInstancesBody)
    (session : Session) :
  dry_run body = true ->
  snd (post_clear_task_instances failed_equivalent running_equivalent
         dag_id dag_bag body session) = session.
Proof.
  intros H. unfold post_clear_task_instances. rewrite H.
  destruct (get_latest_version_of_dag dag_bag dag_id); [|reflexivity].
  cbv zeta.
  match goal with
  | |- context [match ?r with Ok _ => _ | Raise _ => _ end] =>
      destruct r as [[dag' body']|]; [|reflexivity]
  end.
  match goal with
  | |- context [let '(_, _) := ?p in _] => destruct p
  end.
  match goal with
  | |- context [match ?r with Ok _ => _ | Raise _ => _ end] =>
      destruct r; reflexivity
  end.
Qed.

(** The preview and the clearing of a request that resolves. *)
Lemma preview_and_clearing
    (dag_id : string) (dag_bag : DagBag) (body : ClearTaskInstancesBody)
    (session : Session) (dag : DAG) (scope : Scope) :
  Resolves dag_bag session dag_id body dag scope ->
  only_failed body && only_running body = false ->
  exists tis,
    (exists keep, tis = filter keep (task_instance session))
    /\ (forall ti,
          In ti tis
          <-> Affected failed_equivalent running_equivalent
                session dag body scope ti)
    /\ post_clear_task_instances failed_equivalent running_equivalent
         dag_id dag_bag (with_dry_run true body) session
       = (Ok {| task_instances := tis; total_entries := List.length tis |},
          session)
    /\ post_clear_task_instances failed_equivalent running_equivalent
         dag_id dag_bag (with_dry_run false body) session
       = (Ok {| task_instances := map reset tis;
                total_entries := List.length (map reset tis) |},
          snd (clear_task_instances tis session
                 (if reset_dag_runs body then Some DagRunState.QUEUED
                  else None)
                 (run_on_latest_version body))).
Proof.
  intros HR Hflags.
  destruct (dag_clear_affected failed_equivalent running_equivalent
              (fst (effective_subset dag body)) session
              (snd (effective_subset dag body)) body scope Hflags)
    as (tis & Hclear & Hkeep & Hin).
  exists tis. split; [exact Hkeep|]. split.
  - intros ti. rewrite Hin. unfold Affected, in_scope_of.
    assert (E : dag_dag_id (fst (effective_subset dag body)) = dag_dag_id dag)
      by (unfold effective_subset; destruct (task_ids body); reflexivity).
    rewrite E. tauto.
  - split.
    + rewrite (post_clear_resolved _ _ _ _ _ _ _ _
                 (Resolves_with_dry_run true _ _ _ _ _ _ HR)).
      change (effective_subset dag (with_dry_run true body))
        with (effective_subset dag body).
      change (only_failed (with_dry_run true body)) with (only_failed body).
      change (only_running (with_dry_run true body)) with (only_running body).
      rewrite Hclear. reflexivity.
    + rewrite (post_clear_resolved _ _ _ _ _ _ _ _
                 (Resolves_with_dry_run false _ _ _ _ _ _ HR)).
      change (effective_subset dag (with_dry_run false body))
        with (effective_subset dag body).
      change (only_failed (with_dry_run false body)) with (only_failed body).
      change (only_running (with_dry_run false body)) with (only_running body).
      rewrite Hclear. reflexivity.
Qed.

Lemma with_dry_run_involved (b : bool) (body : ClearTaskInstancesBody) :
  dry_run body = b -> with_dry_run b body = body.
Proof. intros <-. destruct body; reflexivity. Qed.

(** C1: with [dry_run] set the route leaves the session as it was, so no
    state, try number or dag run state changes.  On a request that
    resolves, the dry run succeeds and returns the affected task
    instances: the live rows in scope, within the task subset and the
    state filters of the request, in table order.  The same request with
    [dry_run] unset then succeeds on the same keys, resets the rows whose
    key is in the previewed set and leaves every other row as it was;
    when keys are unique among the live rows, the rows it resets are the
    previewed rows and no others.  A dry run succeeds only on a request
    that resolves. *)
Theorem dry_run_previews_the_clearing :
  forall (dag_id : string) (dag_bag : DagBag) (body : ClearTaskInstancesBody)
         (session : Session),
    (dry_run body = true ->
       snd (post_clear_task_instances failed_equivalent running_equivalent
              dag_id dag_bag body session) = session)
    /\ (forall dag scope,
          Resolves dag_bag session dag_id body dag scope ->
          only_failed body && only_running body = false ->
          exists preview,
            post_clear_task_instances failed_equivalent running_equivalent
              dag_id dag_bag (with_dry_run true body) session
            = (Ok preview, session)
            /\ (forall ti,
                  In ti (task_instances preview)
                  <-> Affected failed_equivalent running_equivalent
                        session dag body scope ti)
            /\ (exists keep,
                  task_instances preview
                  = filter keep (task_instance session))
            /\ total_entries preview = List.length (task_instances preview)
            /\ exists cleared session2,
                 post_clear_task_instances failed_equivalent
                   running_equivalent
                   dag_id dag_bag (with_dry_run false body) session
                 = (Ok cleared, session2)
                 /\ map TI.key (task_instances cleared)
                    = map TI.key (task_instances preview)
                 /\ task_instance session2
                    = map (fun row =>
                             if is_affected (task_instances preview) row
                             then reset row else row)
                          (task_instance session)
                 /\ (NoDup (map TI.key (task_instance session)) ->
                     forall row, In row (task_instance session) ->
                       (is_affected (task_instances preview) row = true
                        <-> In row (task_instances preview))))
    /\ (forall preview session1,
          post_clear_task_instances failed_equivalent running_equivalent
            dag_id dag_bag (with_dry_run true body) session
          = (Ok preview, session1) ->
          (exists dag scope, Resolves dag_bag session dag_id body dag scope)
          /\ only_failed body && only_running body = false).
Proof.
  intros dag_id dag_bag body session.
  split; [apply preview_snd|]. split.
  - intros dag scope HR Hflags.
    destruct (preview_and_clearing _ _ _ _ _ _ HR Hflags)
      as (tis & (keep & Hkeep) & Hin & Hdry & Hwet).
    eexists. split; [exact Hdry|]. cbn [task_instances total_entries].
    split; [exact Hin|]. split; [exists keep; exact Hkeep|].
    split; [reflexivity|].
    do 2 eexists. split; [exact Hwet|]. cbn.
    split; [rewrite map_map; apply map_ext; intros; reflexivity|].
    split; [reflexivity|].
    intros N row Hrow. rewrite is_affected_In, in_map_iff. split.
    + intros (ti & E & Hti).
      assert (Hti' : In ti (task_instance session))
        by (rewrite Hkeep in Hti; apply filter_In in Hti; tauto).
      rewrite <- (NoDup_key_inj _ N _ _ Hti' Hrow E). exact Hti.
    + intros Hin'. exists row; auto.
  - intros preview session1 H.
    destruct (post_clear_Ok_resolves _ _ _ _ _ _ _ _ H)
      as ((dag & scope & HR) & Hflags).
    split; [|exact Hflags]. exists dag, scope.
    rewrite <- (with_dry_run_involved (dry_run body) body eq_refl).
    assert (E : with_dry_run (dry_run body) (with_dry_run true body)
                = with_dry_run (dry_run body) body) by reflexivity.
    rewrite <- E. apply Resolves_with_dry_run. exact HR.
Qed.

(** C2, as the code has it: a request that names a dag run and sets
    [include_past] or [include_future] fails and modifies nothing; it
    fails with InvalidRequest when the DAG, the named dag run and the DAG
    of that run are found, and with NotFound otherwise; either way the
    outcome is decided from the dag runs alone, before any task instance
    row is read. *)
Theorem run_scope_with_past_or_future_fails :
  forall (dag_id : string) (dag_bag : DagBag) (body : ClearTaskInstancesBody)
         (session : Session) (run_id : string),
    dag_run_id body = Some run_id ->
    include_past body || include_future body = true ->
    let resolves :=
      exists dag dag_run dag',
        get_latest_version_of_dag dag_bag dag_id = Some dag
        /\ scalar (select_dag_run session dag_id run_id) = Some dag_run
        /\ get_dag_for_run dag_bag (Some dag_run) = Some dag' in
    let result :=
      post_clear_task_instances failed_equivalent running_equivalent
        dag_id dag_bag body session in
    snd result = session
    /\ (resolves ->
        fst result
        = Raise (HTTPException status.HTTP_400_BAD_REQUEST
                   (Str "Cannot use include_past or include_future when dag_run_id is provided because logical_date is not applicable.")))
    /\ (~ resolves -> exists e, fst result = Raise e /\ NotFound e)
    /\ (forall session',
          dag_run session' = dag_run session ->
          fst (post_clear_task_instances failed_equivalent running_equivalent
                 dag_id dag_bag body session')
          = fst result).
Proof.
  intros dag_id dag_bag body session run_id Hrun Hflag resolves result.
  subst result resolves. unfold post_clear_task_instances.
  rewrite Hrun, Hflag.
  destruct (get_latest_version_of_dag dag_bag dag_id) as [dag|] eqn:Hdag.
  2:{ cbn. repeat split.
      - intros (? & ? & ? & [=] & _).
      - intros _. eexists; split; [reflexivity|eexists; reflexivity]. }
  cbn -[select_dag_run].
  destruct (scalar (select_dag_run session dag_id run_id)) as [dr|] eqn:Hdr.
  2:{ cbn. repeat split.
      - intros (? & ? & ? & _ & [=] & _).
      - intros _. eexists; split; [reflexivity|eexists; reflexivity].
      - intros session' E. unfold select_dag_run in *. rewrite E, Hdr.
        reflexivity. }
  destruct (get_dag_for_run dag_bag (Some dr)) as [dag'|] eqn:Hfor.
  2:{ cbn. repeat split.
      - intros (? & ? & ? & _ & [= <-] & E). congruence.
      - intros _. eexists; split; [reflexivity|eexists; reflexivity].
      - intros session' E. unfold select_dag_run in *. rewrite E, Hdr, Hfor.
        reflexivity. }
  cbn. repeat split.
  - intros H. exfalso; apply H. exists dag, dr, dag'. auto.
  - intros session' E. unfold select_dag_run in *. rewrite E, Hdr, Hfor.
    reflexivity.
Qed.

(** C6, as the code and the contract of [DAG.clear] have it: a request
    that sets both [only_failed] and [only_running] fails and leaves the
    session as it was, so neither flag wins and no task instance is
    cleared; it fails with InvalidRequest when the DAG and, for a request
    that names a dag run, the run and the DAG of the run are found, and
    with NotFound otherwise. *)
Theorem both_filters_fail_without_clearing :
  forall (dag_id : string) (dag_bag : DagBag) (body : ClearTaskInstancesBody)
         (session : Session),
    only_failed body = true ->
    only_running body = true ->
    let found :=
      exists dag,
        get_latest_version_of_dag dag_bag dag_id = Some dag
        /\ forall run_id, dag_run_id body = Some run_id ->
             exists dag_run dag',
               scalar (select_dag_run session dag_id run_id) = Some dag_run
               /\ get_dag_for_run dag_bag (Some dag_run) = Some dag' in
    let result :=
      post_clear_task_instances failed_equivalent running_equivalent
        dag_id dag_bag body session in
    snd result = session
    /\ (found -> exists e, fst result = Raise e /\ InvalidRequest e)
    /\ (~ found -> exists e, fst result = Raise e /\ NotFound e).
Proof.
  intros dag_id dag_bag body session Hf Hr found result.
  subst result found. unfold post_clear_task_instances.
  destruct body as [dry st en onf onr rdr tids rid up down fut past rolv].
  cbn in Hf, Hr. subst onf onr.
  cbn -[partial_subset select_dag_run clear_task_instances].
  destruct (get_latest_version_of_dag dag_bag dag_id) as [latest|].
  2:{ cbn. repeat split.
      - intros (? & [=] & _).
      - intros _. eexists; split; [reflexivity|eexists; reflexivity]. }
  destruct rid as [rid|].
  - destruct (scalar (select_dag_run session dag_id rid)) as [dr|] eqn:Hdr.
    2:{ cbn. repeat split.
        - intros (? & _ & H).
          destruct (H rid eq_refl) as (? & ? & E & _). congruence.
        - intros _. eexists; split; [reflexivity|eexists; reflexivity]. }
    destruct (get_dag_for_run dag_bag (Some dr)) as [dag|] eqn:Hdag.
    2:{ cbn. repeat split.
        - intros (? & _ & H).
          destruct (H rid eq_refl) as (? & ? & E1 & E2). congruence.
        - intros _. eexists; split; [reflexivity|eexists; reflexivity]. }
    assert (F : exists d,
                  Some latest = Some d
                  /\ forall run_id, Some rid = Some run_id ->
                       exists dag_run dag',
                         scalar (select_dag_run session dag_id run_id)
                         = Some dag_run
                         /\ get_dag_for_run dag_bag (Some dag_run) = Some dag').
    { exists latest. split; [reflexivity|].
      intros ? [= <-]. exists dr, dag. auto. }
    destruct past, fut; cbn -[partial_subset select_dag_run];
      try destruct tids; cbn -[partial_subset select_dag_run];
      (repeat split;
       [intros _; eexists; split; [reflexivity|eexists; reflexivity]
       |intros H; exfalso; exact (H F)]).
  - assert (F : exists d,
                  Some latest = Some d
                  /\ forall run_id, @None string = Some run_id ->
                       exists dag_run dag',
                         scalar (select_dag_run session dag_id run_id)
                         = Some dag_run
                         /\ get_dag_for_run dag_bag (Some dag_run) = Some dag').
    { exists latest. split; [reflexivity|]. intros ? [=]. }
    destruct past, fut; cbn -[partial_subset select_dag_run];
      destruct tids; cbn -[partial_subset select_dag_run];
      (repeat split;
       [intros _; eexists; split; [reflexivity|eexists; reflexivity]
       |intros H; exfalso; exact (H F)]).
Qed.

(** C7: in a date-range request, [include_past] removes the lower bound
    of the window [start_date, end_date] and [include_future] the upper
    bound; the route succeeds, and the task instances it affects are the
    live rows of the DAG owned by a dag run whose logical date falls in
    the resulting window, within the task subset and the state filters of
    the request; without task ids and state filters, all of them. *)
Theorem date_range_window :
  forall (dag_id : string) (dag_bag : DagBag) (body : ClearTaskInstancesBody)
         (session : Session) (dag : DAG),
    dag_run_id body = None ->
    get_latest_version_of_dag dag_bag dag_id = Some dag ->
    only_failed body && only_running body = false ->
    let lo := if include_past body then None else start_date body in
    let hi := if include_future body then None else end_date body in
    exists response session',
      post_clear_task_instances failed_equivalent running_equivalent
        dag_id dag_bag body session = (Ok response, session')
      /\ (forall k,
            In k (map TI.key (task_instances response))
            <-> exists ti,
                  Affected failed_equivalent running_equivalent
                    session dag body (ByDates lo hi) ti
                  /\ TI.key ti = k)
      /\ (dry_run body = true ->
          forall ti,
            In ti (task_instances response)
            <-> Affected failed_equivalent running_equivalent
                  session dag body (ByDates lo hi) ti)
      /\ (task_ids body = None ->
          only_failed body = false ->
          only_running body = false ->
          forall ti,
            Affected failed_equivalent running_equivalent
              session dag body (ByDates lo hi) ti
            <-> In ti (task_instance session)
                /\ TI.dag_id ti = dag_dag_id dag
                /\ exists dr,
                     In dr (dag_run session) /\ owns dr ti = true
                     /\ falls_in lo hi (DagRun.logical_date dr)).
Proof.
  intros dag_id dag_bag body session dag Hrun Hdag Hflags lo hi.
  pose proof (resolves_dates dag_bag session dag_id body dag Hrun Hdag) as HR.
  change (lower_bound body) with lo in HR.
  change (upper_bound body) with hi in HR.
  destruct (preview_and_clearing _ _ _ _ _ _ HR Hflags)
    as (tis & _ & Hin & Hdry & Hwet).
  assert (Hlast :
            task_ids body = None ->
            only_failed body = false ->
            only_running body = false ->
            forall ti,
              Affected failed_equivalent running_equivalent
                session dag body (ByDates lo hi) ti
              <-> In ti (task_instance session)
                  /\ TI.dag_id ti = dag_dag_id dag
                  /\ exists dr,
                       In dr (dag_run session) /\ owns dr ti = true
                       /\ falls_in lo hi (DagRun.logical_date dr)).
  { intros Ht Hf Hr ti.
    unfold Affected, in_scope_of, within_task_subset, passes_state_filters,
      effective_subset.
    rewrite Ht, Hf, Hr. cbn [fst snd]. split.
    - intros (H1 & (H2 & H3) & _ & _). auto.
    - intros (H1 & H2 & H3). repeat split; auto; discriminate. }
  destruct (dry_run body) eqn:Hd.
  - rewrite (with_dry_run_involved true body Hd) in Hdry.
    do 2 eexists. split; [exact Hdry|]. cbn [task_instances].
    split; [|split; [intros _; exact Hin|exact Hlast]].
    intros k. rewrite in_map_iff. split.
    + intros (ti & E & Hti). exists ti. split; [apply Hin, Hti|exact E].
    + intros (ti & Hti & E). exists ti. split; [exact E|apply Hin, Hti].
  - rewrite (with_dry_run_involved false body Hd) in Hwet.
    do 2 eexists. split; [exact Hwet|]. cbn [task_instances].
    split; [|split; [discriminate|exact Hlast]].
    intros k. rewrite map_map, in_map_iff. split.
    + intros (ti & E & Hti). exists ti. split; [apply Hin, Hti|exact E].
    + intros (ti & Hti & E). exists ti. split; [exact E|apply Hin, Hti].
Qed.

Lemma reset_fields (ti ti0 : TI.t) :
  ti = reset ti0
  <-> TI.key ti = TI.key ti0
      /\ TI.try_number ti = TI.try_number ti0
      /\ TI.state ti = None /\ TI.start_date ti = None
      /\ TI.end_date ti = None /\ TI.duration ti = None.
Proof.
  split.
  - intros ->. repeat split.
  - destruct ti, ti0. unfold TI.key, reset; cbn.
    intros ([= -> -> -> ->] & -> & -> & -> & -> & ->). reflexivity.
Qed.

(** C8: with [dry_run] unset, a request that resolves succeeds; the task
    instances it returns are the affected ones, each with state [none],
    its try-specific fields cleared and its try number as before; in the
    session every row keeps its key and try number, a row with the key of
    an affected task instance has its state and try-specific fields
    cleared, and every other row is as it was; when [reset_dag_runs] is
    set the dag runs that own an affected task instance are forced to
    [QUEUED] and the others are as they were, and when it is not set the
    dag runs are as they were. *)
Theorem clearing_resets_task_instances :
  forall (dag_id : string) (dag_bag : DagBag) (body : ClearTaskInstancesBody)
         (session : Session) (dag : DAG) (scope : Scope),
    dry_run body = false ->
    Resolves dag_bag session dag_id body dag scope ->
    only_failed body && only_running body = false ->
    let affected :=
      Affected failed_equivalent running_equivalent session dag body scope in
    let touched :=
      touched failed_equivalent running_equivalent session dag body scope in
    exists response session',
      post_clear_task_instances failed_equivalent running_equivalent
        dag_id dag_bag body session = (Ok response, session')
      /\ (forall ti,
            In ti (task_instances response)
            <-> exists ti0,
                  affected ti0
                  /\ TI.key ti = TI.key ti0
                  /\ TI.try_number ti = TI.try_number ti0
                  /\ TI.state ti = None /\ TI.start_date ti = None
                  /\ TI.end_date ti = None /\ TI.duration ti = None)
      /\ Forall2
           (fun row row' =>
              TI.key row' = TI.key row
              /\ TI.try_number row' = TI.try_number row
              /\ (touched row ->
                    TI.state row' = None /\ TI.start_date row' = None
                    /\ TI.end_date row' = None /\ TI.duration row' = None)
              /\ (~ touched row -> row' = row))
           (task_instance session) (task_instance session')
      /\ (NoDup (map TI.key (task_instance session)) ->
          forall row, In row (task_instance session) ->
            (touched row <-> affected row))
      /\ (reset_dag_runs body = true ->
          Forall2
            (fun dr dr' =>
               DagRun.dag_id dr' = DagRun.dag_id dr
               /\ DagRun.run_id dr' = DagRun.run_id dr
               /\ DagRun.logical_date dr' = DagRun.logical_date dr
               /\ ((exists ti, affected ti /\ owns dr ti = true) ->
                     DagRun.state dr' = DagRunState.QUEUED)
               /\ (~ (exists ti, affected ti /\ owns dr ti = true) ->
                     dr' = dr))
            (dag_run session) (dag_run session'))
      /\ (reset_dag_runs body = false ->
          dag_run session' = dag_run session).
Proof.
  intros dag_id dag_bag body session dag scope Hd HR Hflags affected touched'.
  destruct (preview_and_clearing _ _ _ _ _ _ HR Hflags)
    as (tis & _ & Hin & _ & Hwet).
  rewrite (with_dry_run_involved false body Hd) in Hwet.
  assert (Ht : forall row, is_affected tis row = true <-> touched' row).
  { intros row. rewrite is_affected_In, in_map_iff.
    subst touched'. unfold touched. fold affected. split.
    - intros (ti & E & Hti). exists ti. split; [apply Hin, Hti|exact E].
    - intros (ti & Hti & E). exists ti. split; [exact E|apply Hin, Hti]. }
  do 2 eexists. split; [exact Hwet|].
  cbn [task_instances snd clear_task_instances task_instance dag_run].
  split.
  { intros ti. rewrite in_map_iff. split.
    - intros (ti0 & <- & Hti0). exists ti0.
      split; [apply Hin, Hti0|]. apply reset_fields. reflexivity.
    - intros (ti0 & Hti0 & Hfields). exists ti0.
      split; [symmetry; apply reset_fields, Hfields|apply Hin, Hti0]. }
  split.
  { apply Forall2_map_right. intros row _.
    destruct (is_affected tis row) eqn:E.
    - split; [reflexivity|]. split; [reflexivity|].
      split; [intros _; repeat split|].
      intros H; exfalso; apply H, Ht, E.
    - split; [reflexivity|]. split; [reflexivity|].
      split; [|intros _; reflexivity].
      intros H. apply Ht in H. congruence. }
  split.
  { intros N row Hrow. subst touched'. unfold touched. fold affected. split.
    - intros (ti & Hti & E).
      assert (Hti' : In ti (task_instance session)) by (apply Hti).
      rewrite <- (NoDup_key_inj _ N _ _ Hti' Hrow E). exact Hti.
    - intros H. exists row. auto. }
  split.
  - intros ->. apply Forall2_map_right. intros dr _.
    assert (Ho : existsb (owns dr) tis = true
                 <-> exists ti, affected ti /\ owns dr ti = true).
    { rewrite existsb_exists. split.
      - intros (ti & Hti & H). exists ti. split; [apply Hin, Hti|exact H].
      - intros (ti & Hti & H). exists ti. split; [apply Hin, Hti|exact H]. }
    destruct (existsb (owns dr) tis) eqn:E.
    + split; [reflexivity|]. split; [reflexivity|]. split; [reflexivity|].
      split; [intros _; reflexivity|].
      intros H; exfalso; apply H, Ho; reflexivity.
    + split; [reflexivity|]. split; [reflexivity|]. split; [reflexivity|].
      split; [|intros _; reflexivity].
      intros H. apply Ho in H. discriminate.
  - intros ->. reflexivity.
Qed.

End ClearingProperties.

(** ** The theorems at work on the example installation *)

Lemma clear_r1_failed_resolves :
  Resolves Example.bag Example.store "etl" Example.clear_r1_failed
    Example.etl (ByRunId "r1").
Proof.
  exact (resolves_run Example.bag Example.store "etl" Example.clear_r1_failed
           "r1" Example.etl Example.etl Example.r1
           eq_refl eq_refl eq_refl eq_refl eq_refl eq_refl).
Defined.

Lemma extract_r1_affected :
  Affected Example.no_equivalent Example.no_equivalent Example.store
    Example.etl Example.clear_r1_failed (ByRunId "r1") Example.extract_r1.
Proof.
  split; [left; reflexivity|].
  split; [split; reflexivity|].
  split; [intros l H; discriminate H|].
  split; [|discriminate].
  intros _. exists TaskInstanceState.FAILED. split; [reflexivity|left; reflexivity].
Defined.

Lemma dry_run_previews_the_clearing_witness :
  exists preview cleared session2,
    post_clear_task_instances Example.no_equivalent Example.no_equivalent
      "etl" Example.bag (with_dry_run true Example.clear_r1_failed)
      Example.store = (Ok preview, Example.store)
    /\ In Example.extract_r1 (task_instances preview)
    /\ post_clear_task_instances Example.no_equivalent Example.no_equivalent
         "etl" Example.bag (with_dry_run false Example.clear_r1_failed)
         Example.store = (Ok cleared, session2)
    /\ map TI.key (task_instances cleared)
       = map TI.key (task_instances preview).
Proof.
  destruct (proj1 (proj2 (dry_run_previews_the_clearing
                            Example.no_equivalent Example.no_equivalent
                            "etl" Example.bag Example.clear_r1_failed
                            Example.store))
              Example.etl (ByRunId "r1") clear_r1_failed_resolves eq_refl)
    as (preview & H1 & H2 & _ & _ & cleared & session2 & H3 & H4 & _).
  exists preview, cleared, session2.
  split; [exact H1|]. split; [apply H2, extract_r1_affected|].
  split; [exact H3|exact H4].
Defined.

(** C2 does not hold for every request: this one names the run [r9],
    which does not exist, and sets [include_past]; the route answers
    NotFound, not InvalidRequest. *)
Lemma run_scope_past_on_missing_run_is_not_found :
  dag_run_id Example.clear_missing_run_past = Some "r9"
  /\ include_past Example.clear_missing_run_past = true
  /\ fst (post_clear_task_instances Example.no_equivalent
            Example.no_equivalent
            "etl" Example.bag Example.clear_missing_run_past Example.store)
     = Raise (HTTPException status.HTTP_404_NOT_FOUND
                (Str "Dag Run id r9 not found in dag etl")).
Proof. repeat split. Qed.

Lemma run_scope_with_past_or_future_fails_witness :
  fst (post_clear_task_instances Example.no_equivalent Example.no_equivalent
         "etl" Example.bag Example.clear_r1_past Example.store)
  = Raise (HTTPException status.HTTP_400_BAD_REQUEST
             (Str "Cannot use include_past or include_future when dag_run_id is provided because logical_date is not applicable.")).
Proof.
  apply (proj1 (proj2 (run_scope_with_past_or_future_fails
                         Example.no_equivalent Example.no_equivalent
                         "etl" Example.bag Example.clear_r1_past
                         Example.store "r1" eq_refl eq_refl))).
  exists Example.etl, Example.r1, Example.etl. repeat split.
Defined.

(** C6 does not hold for every request: this one sets both state filters
    and names a DAG that does not exist; the route answers NotFound, not
    InvalidRequest. *)
Lemma both_filters_on_missing_dag_is_not_found :
  only_failed Example.clear_both_filters = true
  /\ only_running Example.clear_both_filters = true
  /\ fst (post_clear_task_instances Example.no_equivalent
            Example.no_equivalent
            "nope" Example.bag Example.clear_both_filters Example.store)
     = Raise (HTTPException status.HTTP_404_NOT_FOUND
                (Str "DAG nope not found")).
Proof. repeat split. Qed.

Lemma both_filters_fail_without_clearing_witness :
  snd (post_clear_task_instances Example.no_equivalent Example.no_equivalent
         "etl" Example.bag Example.clear_both_filters Example.store)
  = Example.store
  /\ exists e,
       fst (post_clear_task_instances Example.no_equivalent
              Example.no_equivalent
              "etl" Example.bag Example.clear_both_filters Example.store)
       = Raise e
       /\ InvalidRequest e.
Proof.
  destruct (both_filters_fail_without_clearing
              Example.no_equivalent Example.no_equivalent
              "etl" Example.bag Example.clear_both_filters Example.store
              eq_refl eq_refl)
    as (Hs & Hfound & _).
  split; [exact Hs|]. apply Hfound.
  exists Example.etl. split; [reflexivity|].
  intros run_id [= <-]. exists Example.r1, Example.etl. split; reflexivity.
Defined.

Lemma date_range_window_witness :
  exists response session',
    post_clear_task_instances Example.no_equivalent Example.no_equivalent
      "etl" Example.bag Example.clear_from_15 Example.store
    = (Ok response, session')
    /\ (In Example.extract_r2 (task_instances response)
        <-> exists dr,
              In dr (dag_run Example.store)
              /\ owns dr Example.extract_r2 = true
              /\ falls_in (Some 15) None (DagRun.logical_date dr)).
Proof.
  destruct (date_range_window
              Example.no_equivalent Example.no_equivalent
              "etl" Example.bag Example.clear_from_15 Example.store
              Example.etl eq_refl eq_refl eq_refl)
    as (response & session' & H1 & _ & H2 & H3).
  exists response, session'. split; [exact H1|].
  rewrite (H2 eq_refl), (H3 eq_refl eq_refl eq_refl). split.
  - intros (_ & _ & H). exact H.
  - intros H. split; [right; right; left; reflexivity|].
    split; [reflexivity|exact H].
Defined.

Lemma clearing_resets_task_instances_witness :
  exists response session' run runs ti,
    post_clear_task_instances Example.no_equivalent Example.no_equivalent
      "etl" Example.bag Example.clear_r1_failed Example.store
    = (Ok response, session')
    /\ In ti (task_instances response)
    /\ TI.key ti = TI.key Example.extract_r1
    /\ TI.try_number ti = 1
    /\ TI.state ti = None
    /\ dag_run session' = run :: runs
    /\ DagRun.run_id run = "r1"
    /\ DagRun.state run = DagRunState.QUEUED.
Proof.
  destruct (clearing_resets_task_instances
              Example.no_equivalent Example.no_equivalent
              "etl" Example.bag Example.clear_r1_failed Example.store
              Example.etl (ByRunId "r1")
              eq_refl clear_r1_failed_resolves eq_refl)
    as (response & session' & H1 & H2 & _ & _ & H3 & _).
  specialize (H3 eq_refl).
  change (dag_run Example.store) with [Example.r1; Example.r2] in H3.
  inversion H3 as [|r1 run others runs Hrun Hruns E1 E2].
  destruct Hrun as (_ & Hid & _ & Hq & _).
  exists response, session', run, runs, (reset Example.extract_r1).
  split; [exact H1|]. split.
  { apply H2. exists Example.extract_r1.
    split; [exact extract_r1_affected|]. repeat split. }
  split; [reflexivity|]. split; [reflexivity|]. split; [reflexivity|].
  split; [symmetry; exact E2|]. split; [exact Hid|].
  apply Hq. exists Example.extract_r1.
  split; [exact extract_r1_affected|reflexivity].
Defined.

(** * Further properties of the routes *)

(** ** First rows *)

Lemma scalar_filter_find {A : Type} (p : A -> bool) (rows : list A) :
  scalar (filter p rows) = find p rows.
Proof.
  induction rows as [|x rows IH]; simpl; [reflexivity|].
  destruct (p x); [reflexivity|exact IH].
Qed.

Lemma scalar_copies {A B : Type} (f : B -> bool) (a : A) (l : list B)
    (rest : list A) :
  scalar (map (fun _ => a) (filter f l) ++ rest)%list
  = if existsb f l then Some a else scalar rest.
Proof.
  induction l as [|b l IH]; simpl; [reflexivity|].
  destruct (f b); simpl; [reflexivity|exact IH].
Qed.

Lemma scalar_join_find (session : Session) (p : TI.t -> bool)
    (rows : list TI.t) :
  scalar (join_dag_run session (filter p rows))
  = find (fun ti => p ti && joined session ti) rows.
Proof.
  unfold join_dag_run, joined.
  induction rows as [|x rows IH]; simpl; [reflexivity|].
  destruct (p x); simpl; [|exact IH].
  rewrite scalar_copies, IH. reflexivity.
Qed.

Lemma joined_has_dag_run (session : Session) (ti : TI.t) :
  joined session ti = true <-> has_dag_run session ti.
Proof. unfold joined, has_dag_run. apply existsb_exists. Qed.

Lemma find_refine {A : Type} (f g : A -> bool) (l : list A) (x : A) :
  find f l = Some x -> g x = true ->
  find (fun y => f y && g y) l = Some x.
Proof.
  induction l as [|a l IH]; simpl; [discriminate|].
  destruct (f a) eqn:Fa; simpl.
  - intros [= ->] ->. reflexivity.
  - exact IH.
Qed.

Lemma find_same {A : Type} (f g : A -> bool) (l : list A) :
  (forall x, f x = g x) -> find f l = find g l.
Proof.
  intros E. induction l as [|a l IH]; simpl; [reflexivity|].
  rewrite E, IH. reflexivity.
Qed.

Lemma find_none_iff {A : Type} (f : A -> bool) (l : list A) :
  find f l = None <-> forall x, In x l -> f x = false.
Proof.
  split; [apply find_none|].
  induction l as [|a l IH]; simpl; intros H; [reflexivity|].
  rewrite (H a (or_introl eq_refl)). apply IH. intros x Hx; apply H; auto.
Qed.

Lemma by_key_true (k : TIKey) (ti : TI.t) : by_key k ti = true <-> TI.key ti = k.
Proof. unfold by_key. apply TIKey_eqb_eq. Qed.

(** X1: [get_mapped_task_instance] returns a live row of the requested
    key that has a dag run; it answers NotFound exactly when no live row
    of that key has a dag run. *)
Theorem get_mapped_task_instance_finds_the_key :
  forall (dag_id dag_run_id task_id : string) (map_index : Z)
         (session : Session),
    let k : TIKey := (dag_id, dag_run_id, task_id, map_index) in
    let result :=
      get_mapped_task_instance dag_id dag_run_id task_id map_index session in
    (forall ti, result = Ok ti ->
       In ti (task_instance session) /\ TI.key ti = k
       /\ has_dag_run session ti)
    /\ ((exists e, result = Raise e /\ NotFound e)
        <-> forall ti, In ti (task_instance session) -> TI.key ti = k ->
              ~ has_dag_run session ti).
Proof.
  intros dag_id dag_run_id task_id map_index session k result.
  subst result. unfold get_mapped_task_instance, get_mapped_task_instance_query.
  rewrite scalar_join_find.
  change (fun ti : TI.t => _ && joined session ti)
    with (fun ti => by_key k ti && joined session ti).
  destruct (find _ (task_instance session)) as [row|] eqn:F.
  - apply find_some in F. destruct F as [Hin Hp].
    apply andb_true_iff in Hp. destruct Hp as [Hk Hj].
    apply by_key_true in Hk. apply joined_has_dag_run in Hj.
    split.
    + intros ti [= <-]. auto.
    + split.
      * intros (e & [=] & _).
      * intros H. exfalso. exact (H row Hin Hk Hj).
  - split; [discriminate|]. split.
    + intros _ ti Hin Hk Hj.
      pose proof (find_none _ _ F ti Hin) as Hf. cbn beta in Hf.
      apply by_key_true in Hk. apply joined_has_dag_run in Hj.
      rewrite Hk, Hj in Hf. discriminate.
    + intros _. eexists; split; [reflexivity|eexists; reflexivity].
Qed.

(** X2: a task instance that [get_task_instance] returns is the one
    [get_mapped_task_instance] returns for map_index -1. *)
Theorem unmapped_lookup_agrees_with_mapped_lookup :
  forall (dag_id dag_run_id task_id : string) (session : Session) (ti : TI.t),
    get_task_instance dag_id dag_run_id task_id session = Ok ti ->
    get_mapped_task_instance dag_id dag_run_id task_id (-1) session = Ok ti.
Proof.
  intros dag_id dag_run_id task_id session ti.
  unfold get_task_instance, get_task_instance_query,
    get_mapped_task_instance, get_mapped_task_instance_query.
  rewrite !scalar_join_find.
  destruct (find _ (task_instance session)) as [row|] eqn:F; [|discriminate].
  destruct (TI.map_index row =? -1) eqn:M; simpl; [|discriminate].
  intros [= ->].
  apply (find_refine _ (fun y => TI.map_index y =? -1)) in F; [|exact M].
  erewrite find_same; [rewrite F; reflexivity|].
  intros x; cbn beta.
  destruct (String.eqb (TI.dag_id x) dag_id), (String.eqb (TI.run_id x) dag_run_id),
    (String.eqb (TI.task_id x) task_id), (TI.map_index x =? -1),
    (joined session x); reflexivity.
Qed.

(** X3: when [get_task_instance] refuses a lookup because the task
    instance is mapped, some map_index other than -1 makes
    [get_mapped_task_instance] succeed for the same dag, run and task. *)
Theorem mapped_error_points_to_a_mapped_row :
  forall (dag_id dag_run_id task_id : string) (session : Session),
    get_task_instance dag_id dag_run_id task_id session
    = Raise (HTTPException status.HTTP_404_NOT_FOUND
               (Str "Task instance is mapped, add the map_index value to the URL")) ->
    exists ti,
      TI.map_index ti <> -1
      /\ get_mapped_task_instance dag_id dag_run_id task_id
           (TI.map_index ti) session = Ok ti.
Proof.
  intros dag_id dag_run_id task_id session.
  unfold get_task_instance, get_task_instance_query,
    get_mapped_task_instance, get_mapped_task_instance_query.
  rewrite scalar_join_find.
  destruct (find _ (task_instance session)) as [row|] eqn:F.
  2:{ cbn. intros H. exfalso. injection H as H. discriminate H. }
  destruct (TI.map_index row =? -1) eqn:M; simpl; [discriminate|].
  intros _. exists row. split; [apply Z.eqb_neq, M|].
  rewrite scalar_join_find.
  apply (find_refine _ (fun y => TI.map_index y =? TI.map_index row)) in F;
    [|apply Z.eqb_refl].
  erewrite find_same; [rewrite F; reflexivity|].
  intros x; cbn beta.
  destruct (String.eqb (TI.dag_id x) dag_id), (String.eqb (TI.run_id x) dag_run_id),
    (String.eqb (TI.task_id x) task_id), (TI.map_index x =? TI.map_index row),
    (joined session x); reflexivity.
Qed.

(** ** Tries *)

Lemma try_details_query_TI_find
    (dag_id dag_run_id task_id : string) (n map_index : Z) (session : Session) :
  try_details_query_TI dag_id dag_run_id task_id n map_index session
  = find (live_try (dag_id, dag_run_id, task_id, map_index) n)
         (task_instance session).
Proof.
  unfold try_details_query_TI. rewrite scalar_filter_find.
  apply find_same. intros x. unfold live_try, by_key; cbn.
  destruct (String.eqb (TI.dag_id x) dag_id),
    (String.eqb (TI.run_id x) dag_run_id),
    (String.eqb (TI.task_id x) task_id), (TI.try_number x =? n),
    (TI.map_index x =? map_index); reflexivity.
Qed.

Lemma try_details_query_TIH_find
    (dag_id dag_run_id task_id : string) (n map_index : Z) (session : Session) :
  try_details_query_TIH dag_id dag_run_id task_id n map_index session
  = find (history_try (dag_id, dag_run_id, task_id, map_index) n)
         (task_instance_history session).
Proof.
  unfold try_details_query_TIH. rewrite scalar_filter_find.
  apply find_same. intros x. unfold history_try; cbn.
  destruct (String.eqb (TIH.dag_id x) dag_id),
    (String.eqb (TIH.run_id x) dag_run_id),
    (String.eqb (TIH.task_id x) task_id), (TIH.try_number x =? n),
    (TIH.map_index x =? map_index); reflexivity.
Qed.

Lemma live_try_true (k : TIKey) (n : Z) (ti : TI.t) :
  live_try k n ti = true <-> TI.key ti = k /\ TI.try_number ti = n.
Proof.
  unfold live_try. rewrite andb_true_iff, by_key_true, Z.eqb_eq. tauto.
Qed.

Lemma history_try_true (k : TIKey) (n : Z) (h : TIH.t) :
  history_try k n h = true <-> TIHKey.key h = k /\ TIH.try_number h = n.
Proof.
  unfold history_try. rewrite andb_true_iff, TIKey_eqb_eq, Z.eqb_eq. tauto.
Qed.

(** X4: [get_task_instance_try_details] returns a row of the requested
    key and try number, the live row whenever there is one and a history
    row only when no live row has that try number; it answers NotFound
    exactly when neither table has such a row. *)
Theorem try_details_prefers_the_live_row :
  forall (dag_id dag_run_id task_id : string) (n : Z) (session : Session)
         (map_index : Z),
    let k : TIKey := (dag_id, dag_run_id, task_id, map_index) in
    let result :=
      get_task_instance_try_details dag_id dag_run_id task_id n session
        map_index in
    (forall ti, result = Ok (Live ti) ->
       In ti (task_instance session) /\ TI.key ti = k /\ TI.try_number ti = n)
    /\ (forall h, result = Ok (History h) ->
          In h (task_instance_history session)
          /\ TIHKey.key h = k /\ TIH.try_number h = n
          /\ forall ti, In ti (task_instance session) -> TI.key ti = k ->
               TI.try_number ti <> n)
    /\ ((exists e, result = Raise e /\ NotFound e)
        <-> (forall ti, In ti (task_instance session) -> TI.key ti = k ->
               TI.try_number ti <> n)
            /\ (forall h, In h (task_instance_history session) ->
                  TIHKey.key h = k -> TIH.try_number h <> n)).
Proof.
  intros dag_id dag_run_id task_id n session map_index k result.
  subst result. unfold get_task_instance_try_details.
  rewrite try_details_query_TI_find, try_details_query_TIH_find. fold k.
  destruct (find (live_try k n) _) as [ti|] eqn:FL.
  - apply find_some in FL. destruct FL as [Hin Hp].
    apply live_try_true in Hp. destruct Hp as [Hk Hn].
    split; [intros ? [= <-]; auto|]. split; [discriminate|]. split.
    + intros (e & [=] & _).
    + intros [H _]. exfalso. exact (H ti Hin Hk Hn).
  - assert (NL : forall ti, In ti (task_instance session) -> TI.key ti = k ->
                   TI.try_number ti <> n).
    { intros ti Hin Hk Hn. pose proof (find_none _ _ FL ti Hin) as Hf.
      assert (live_try k n ti = true) by (apply live_try_true; auto).
      congruence. }
    destruct (find (history_try k n) _) as [h|] eqn:FH.
    + apply find_some in FH. destruct FH as [Hin Hp].
      apply history_try_true in Hp. destruct Hp as [Hk Hn].
      split; [discriminate|]. split; [intros ? [= <-]; auto|]. split.
      * intros (e & [=] & _).
      * intros [_ H]. exfalso. exact (H h Hin Hk Hn).
    + split; [discriminate|]. split; [discriminate|]. split.
      * intros _. split; [exact NL|].
        intros h Hin Hk Hn. pose proof (find_none _ _ FH h Hin) as Hf.
        assert (history_try k n h = true) by (apply history_try_true; auto).
        congruence.
      * intros _. eexists; split; [reflexivity|eexists; reflexivity].
Qed.

Lemma tries_by_listing
    (dag_id dag_run_id task_id : string) (session : Session) (map_index : Z) :
  get_task_instance_tries dag_id dag_run_id task_id session map_index
  = match listed_tries (dag_id, dag_run_id, task_id, map_index) session with
    | [] =>
        Raise (HTTPException status.HTTP_404_NOT_FOUND
                 (Str ("The Task Instance with dag_id: `" ++ dag_id
                       ++ "`, run_id: `" ++ dag_run_id
                       ++ "`, task_id: `" ++ task_id
                       ++ "` and map_index: `" ++ str_of_int map_index
                       ++ "` was not found")))
    | _ :: _ =>
        Ok {| tries_task_instances :=
                listed_tries (dag_id, dag_run_id, task_id, map_index) session;
              tries_total_entries :=
                List.length
                  (listed_tries (dag_id, dag_run_id, task_id, map_index)
                     session) |}
    end.
Proof.
  unfold get_task_instance_tries, listed_tries,
    tries_query_TI, tries_query_TIH.
  rewrite filter_filter_and.
  rewrite (filter_ext
             (fun x => _ && not_up_for_retry x)
             (fun ti => TIKey_eqb (TI.key ti)
                          (dag_id, dag_run_id, task_id, map_index)
                        && listed_live ti))
    by (intros ti; rewrite not_up_for_retry_listed; reflexivity).
  reflexivity.
Qed.

Lemma tries_listing
    (dag_id dag_run_id task_id : string) (session : Session) (map_index : Z)
    (response : TaskInstanceHistoryCollectionResponse) :
  get_task_instance_tries dag_id dag_run_id task_id session map_index
  = Ok response ->
  tries_task_instances response
  = listed_tries (dag_id, dag_run_id, task_id, map_index) session.
Proof.
  rewrite tries_by_listing.
  destruct (listed_tries _ session); [discriminate|].
  intros [= <-]. reflexivity.
Qed.

Lemma tries_listing_nonempty
    (dag_id dag_run_id task_id : string) (session : Session) (map_index : Z)
    (row : TryRow) :
  In row (listed_tries (dag_id, dag_run_id, task_id, map_index) session) ->
  exists response,
    get_task_instance_tries dag_id dag_run_id task_id session map_index
    = Ok response
    /\ In row (tries_task_instances response).
Proof.
  intros Hin. rewrite tries_by_listing.
  destruct (listed_tries _ session) as [|x l] eqn:E; [destruct Hin|].
  eexists; split; [reflexivity|exact Hin].
Qed.

(** X5: every row that [get_task_instance_tries] lists can be fetched
    by its try number through [get_task_instance_try_details]; and a row
    that the details route returns is in the listing, unless it is a live
    row in state [up_for_retry]. *)
Theorem try_details_and_tries_listing :
  forall (dag_id dag_run_id task_id : string) (session : Session)
         (map_index : Z),
    let k : TIKey := (dag_id, dag_run_id, task_id, map_index) in
    (forall response row,
       get_task_instance_tries dag_id dag_run_id task_id session map_index
       = Ok response ->
       In row (tries_task_instances response) ->
       exists found,
         get_task_instance_try_details dag_id dag_run_id task_id
           (try_row_number row) session map_index = Ok found
         /\ try_row_key found = k
         /\ try_row_number found = try_row_number row)
    /\ (forall n found,
          get_task_instance_try_details dag_id dag_run_id task_id n session
            map_index = Ok found ->
          (exists ti, found = Live ti
                      /\ TI.state ti = Some TaskInstanceState.UP_FOR_RETRY)
          \/ exists response,
               get_task_instance_tries dag_id dag_run_id task_id session
                 map_index = Ok response
               /\ In found (tries_task_instances response)).
Proof.
  intros dag_id dag_run_id task_id session map_index k. split.
  - intros response row E Hin.
    rewrite (tries_listing _ _ _ _ _ _ E) in Hin. fold k in Hin.
    unfold get_task_instance_try_details.
    rewrite try_details_query_TI_find, try_details_query_TIH_find. fold k.
    destruct (find (live_try k _) _) as [ti|] eqn:FL.
    + apply find_some in FL. destruct FL as [_ Hp].
      apply live_try_true in Hp. destruct Hp as [Hk Hn].
      exists (Live ti). cbn. auto.
    + destruct (find (history_try k _) _) as [h|] eqn:FH.
      * apply find_some in FH. destruct FH as [_ Hp].
        apply history_try_true in Hp. destruct Hp as [Hk Hn].
        exists (History h). cbn. auto.
      * exfalso. unfold listed_tries in Hin. apply in_app_or in Hin.
        destruct Hin as [Hin|Hin]; apply in_map_iff in Hin;
          destruct Hin as (x & <- & Hx); apply filter_In in Hx;
          destruct Hx as [Hx Hp].
        -- pose proof (find_none _ _ FH x Hx) as Hf. cbn in Hf.
           unfold history_try in Hf. rewrite Hp, Z.eqb_refl in Hf.
           discriminate.
        -- apply andb_true_iff in Hp. destruct Hp as [Hp _].
           pose proof (find_none _ _ FL x Hx) as Hf. cbn in Hf.
           unfold live_try, by_key in Hf. rewrite Hp, Z.eqb_refl in Hf.
           discriminate.
  - intros n found.
    unfold get_task_instance_try_details.
    rewrite try_details_query_TI_find, try_details_query_TIH_find. fold k.
    destruct (find (live_try k n) _) as [ti|] eqn:FL.
    + intros [= <-]. apply find_some in FL. destruct FL as [Hin Hp].
      unfold live_try in Hp. apply andb_true_iff in Hp. destruct Hp as [Hk _].
      destruct (listed_live ti) eqn:L.
      * right. apply tries_listing_nonempty.
        unfold listed_tries. apply in_or_app. right.
        apply in_map, filter_In. split; [exact Hin|].
        unfold by_key in Hk. fold k. rewrite Hk, L. reflexivity.
      * left. exists ti. split; [reflexivity|].
        unfold listed_live in L.
        destruct (TI.state ti) as [[]|]; try discriminate. reflexivity.
    + destruct (find (history_try k n) _) as [h|] eqn:FH; [|discriminate].
      intros [= <-]. apply find_some in FH. destruct FH as [Hin Hp].
      unfold history_try in Hp. apply andb_true_iff in Hp. destruct Hp as [Hk _].
      right. apply tries_listing_nonempty.
      unfold listed_tries. apply in_or_app. left.
      apply in_map, filter_In. split; [exact Hin|exact Hk].
Qed.

(** ** Deleting *)

Lemma delete_first_split (p : TI.t -> bool) (rows : list TI.t) (ti : TI.t) :
  find p rows = Some ti ->
  exists before after,
    rows = (before ++ ti :: after)%list
    /\ delete_first p rows = (before ++ after)%list
    /\ forall x, In x before -> p x = false.
Proof.
  induction rows as [|r rows IH]; simpl; [discriminate|].
  destruct (p r) eqn:P.
  - intros [= ->]. exists [], rows. repeat split. intros x [].
  - intros F. destruct (IH F) as (before & after & -> & E & H).
    exists (r :: before), after. simpl. rewrite E. repeat split.
    intros x [<-|Hx]; [exact P|apply H, Hx].
Qed.

Lemma filter_delete_first_other (p q : TI.t -> bool) (rows : list TI.t) :
  (forall x, p x = true -> q x = false) ->
  filter q (delete_first p rows) = filter q rows.
Proof.
  intros H. induction rows as [|r rows IH]; simpl; [reflexivity|].
  destruct (p r) eqn:P; simpl.
  - rewrite (H r P). reflexivity.
  - rewrite IH. reflexivity.
Qed.

Lemma find_delete_first_other (p q : TI.t -> bool) (rows : list TI.t) :
  (forall x, p x = true -> q x = false) ->
  find q (delete_first p rows) = find q rows.
Proof.
  intros H. induction rows as [|r rows IH]; simpl; [reflexivity|].
  destruct (p r) eqn:P; simpl.
  - rewrite (H r P). reflexivity.
  - rewrite IH. reflexivity.
Qed.

Lemma other_key_survives (k k' : TIKey) (h : TIH.t) :
  k' <> k -> TIKey_eqb (TIHKey.key h) k' = true ->
  negb (TIKey_eqb (TIHKey.key h) k) = true.
Proof.
  intros Hne Hk. apply TIKey_eqb_eq in Hk.
  destruct (TIKey_eqb (TIHKey.key h) k) eqn:E; [|reflexivity].
  apply TIKey_eqb_eq in E. congruence.
Qed.

Lemma filter_cascade_other
    (history_cascade : bool) (k k' : TIKey) (history : list TIH.t) :
  k' <> k ->
  filter (fun h => TIKey_eqb (TIHKey.key h) k')
         (cascade_delete history_cascade k history)
  = filter (fun h => TIKey_eqb (TIHKey.key h) k') history.
Proof.
  intros Hne. unfold cascade_delete.
  destruct history_cascade; [|reflexivity].
  rewrite filter_filter_and. apply filter_ext_in. intros h _. cbn beta.
  destruct (TIKey_eqb (TIHKey.key h) k') eqn:E;
    [|apply andb_false_r].
  rewrite (other_key_survives k k' h Hne E). reflexivity.
Qed.

Lemma find_cascade_other
    (history_cascade : bool) (k k' : TIKey) (n : Z) (history : list TIH.t) :
  k' <> k ->
  find (history_try k' n) (cascade_delete history_cascade k history)
  = find (history_try k' n) history.
Proof.
  intros Hne. unfold cascade_delete.
  destruct history_cascade; [|reflexivity].
  induction history as [|h history IH]; cbn [filter find];
    [reflexivity|].
  destruct (history_try k' n h) eqn:E.
  - pose proof E as E'.
    unfold history_try in E'. apply andb_true_iff in E'.
    destruct E' as [E' _].
    rewrite (other_key_survives k k' h Hne E'). cbn [find].
    rewrite E. reflexivity.
  - destruct (negb (TIKey_eqb (TIHKey.key h) k)); cbn [find];
      [rewrite E|]; exact IH.
Qed.

Lemma delete_by_key
    (history_cascade : bool)
    (dag_id dag_run_id task_id : string) (session : Session) (map_index : Z) :
  delete_task_instance history_cascade dag_id dag_run_id task_id session
    map_index
  = match find (by_key (dag_id, dag_run_id, task_id, map_index))
            (task_instance session) with
    | None =>
        (Raise (HTTPException status.HTTP_404_NOT_FOUND
                  (Str ("The Task Instance with dag_id: `" ++ dag_id
                        ++ "`, run_id: `" ++ dag_run_id
                        ++ "`, task_id: `" ++ task_id
                        ++ "` and map_index: `" ++ str_of_int map_index
                        ++ "` was not found"))),
         session)
    | Some _ =>
        (Ok tt,
         {| task_instance :=
              delete_first (by_key (dag_id, dag_run_id, task_id, map_index))
                (task_instance session);
            task_instance_history :=
              cascade_delete history_cascade
                (dag_id, dag_run_id, task_id, map_index)
                (task_instance_history session);
            dag_run := dag_run session |})
    end.
Proof.
  unfold delete_task_instance. rewrite scalar_filter_find. reflexivity.
Qed.

Lemma by_key_false (k : TIKey) (ti : TI.t) :
  by_key k ti = false <-> TI.key ti <> k.
Proof.
  rewrite <- by_key_true. destruct (by_key k ti); split; congruence.
Qed.

(** X6: [delete_task_instance] fails exactly when no live row has the
    requested key; the failure is NotFound and leaves the session as it
    was. *)
Theorem delete_fails_only_when_absent :
  forall (history_cascade : bool) (dag_id dag_run_id task_id : string)
         (session : Session) (map_index : Z),
    let k : TIKey := (dag_id, dag_run_id, task_id, map_index) in
    let outcome :=
      delete_task_instance history_cascade dag_id dag_run_id task_id
        session map_index in
    ((exists e, fst outcome = Raise e)
     <-> forall ti, In ti (task_instance session) -> TI.key ti <> k)
    /\ (forall e, fst outcome = Raise e ->
          NotFound e /\ snd outcome = session).
Proof.
  intros history_cascade dag_id dag_run_id task_id session map_index
         k outcome.
  subst outcome. rewrite delete_by_key. fold k.
  destruct (find (by_key k) _) as [ti|] eqn:F; cbn.
  - apply find_some in F. destruct F as [Hin Hk]. apply by_key_true in Hk.
    split; [split|discriminate].
    + intros (e & [=]).
    + intros H. exfalso. exact (H ti Hin Hk).
  - split; [split|].
    + intros _ ti Hin. apply by_key_false. exact (find_none _ _ F ti Hin).
    + intros _. eexists; reflexivity.
    + intros e [= <-]. split; [eexists; reflexivity|reflexivity].
Qed.

Lemma delete_splits
    (history_cascade : bool)
    (dag_id dag_run_id task_id : string) (session session' : Session)
    (map_index : Z) :
  delete_task_instance history_cascade dag_id dag_run_id task_id session
    map_index = (Ok tt, session') ->
  exists before ti after,
    task_instance session = (before ++ ti :: after)%list
    /\ task_instance session' = (before ++ after)%list
    /\ TI.key ti = (dag_id, dag_run_id, task_id, map_index)
    /\ forall x, In x before ->
         TI.key x <> (dag_id, dag_run_id, task_id, map_index).
Proof.
  rewrite delete_by_key.
  set (k := (dag_id, dag_run_id, task_id, map_index)).
  destruct (find (by_key k) _) as [ti|] eqn:F; [|discriminate].
  intros [= <-]. cbn.
  destruct (delete_first_split _ _ _ F) as (before & after & E1 & E2 & H).
  exists before, ti, after. repeat split; try assumption.
  - apply find_some in F. apply by_key_true, F.
  - intros x Hx. apply by_key_false, H, Hx.
Qed.

(** X7: a successful [delete_task_instance] removes one live row, the
    first of the requested key, and keeps all other live rows in their
    order. *)
Theorem delete_removes_one_row :
  forall (history_cascade : bool) (dag_id dag_run_id task_id : string)
         (session session' : Session) (map_index : Z),
    let k : TIKey := (dag_id, dag_run_id, task_id, map_index) in
    delete_task_instance history_cascade dag_id dag_run_id task_id session
      map_index = (Ok tt, session') ->
    exists before ti after,
      task_instance session = (before ++ ti :: after)%list
      /\ task_instance session' = (before ++ after)%list
      /\ TI.key ti = k
      /\ forall x, In x before -> TI.key x <> k.
Proof.
  intros history_cascade dag_id dag_run_id task_id session session'
         map_index k.
  apply delete_splits.
Qed.

Lemma absent_not_found
    (dag_id dag_run_id task_id : string) (session : Session) (map_index : Z) :
  (forall ti, In ti (task_instance session) ->
     TI.key ti <> (dag_id, dag_run_id, task_id, map_index)) ->
  find (by_key (dag_id, dag_run_id, task_id, map_index))
       (task_instance session) = None.
Proof.
  intros H. apply find_none_iff. intros x Hx. apply by_key_false, H, Hx.
Qed.

(** X8: when keys are unique among the live rows, after a successful
    delete the keys are still unique, looking the key up answers NotFound
    and deleting it again answers NotFound. *)
Theorem delete_then_lookup_is_not_found :
  forall (history_cascade : bool) (dag_id dag_run_id task_id : string)
         (session session' : Session) (map_index : Z),
    NoDup (map TI.key (task_instance session)) ->
    delete_task_instance history_cascade dag_id dag_run_id task_id session
      map_index = (Ok tt, session') ->
    NoDup (map TI.key (task_instance session'))
    /\ (exists e,
          get_mapped_task_instance dag_id dag_run_id task_id map_index
            session' = Raise e /\ NotFound e)
    /\ (exists e,
          delete_task_instance history_cascade dag_id dag_run_id task_id
            session' map_index
          = (Raise e, session') /\ NotFound e).
Proof.
  intros history_cascade dag_id dag_run_id task_id session session'
         map_index N D.
  destruct (delete_splits _ _ _ _ _ _ _ D)
    as (before & ti & after & E & E' & Hk & _).
  rewrite E, map_app in N. simpl in N.
  pose proof (NoDup_remove_1 _ _ _ N) as N1.
  pose proof (NoDup_remove_2 _ _ _ N) as N2.
  rewrite <- map_app, <- E' in N1, N2.
  assert (A : forall x, In x (task_instance session') ->
                TI.key x <> (dag_id, dag_run_id, task_id, map_index)).
  { intros x Hx Ex. apply N2. apply in_map_iff. exists x.
    split; [congruence|exact Hx]. }
  split; [exact N1|]. split.
  - unfold get_mapped_task_instance, get_mapped_task_instance_query.
    rewrite scalar_join_find.
    assert (F : find (fun ti0 =>
                        String.eqb (TI.dag_id ti0) dag_id
                        && String.eqb (TI.run_id ti0) dag_run_id
                        && String.eqb (TI.task_id ti0) task_id
                        && (TI.map_index ti0 =? map_index)
                        && joined session' ti0)
                     (task_instance session') = None).
    { apply find_none_iff. intros x Hx.
      change (by_key (dag_id, dag_run_id, task_id, map_index) x
              && joined session' x = false).
      rewrite (proj2 (by_key_false _ x) (A x Hx)). reflexivity. }
    rewrite F. eexists; split; [reflexivity|eexists; reflexivity].
  - rewrite delete_by_key, (absent_not_found _ _ _ _ _ A).
    eexists; split; [reflexivity|eexists; reflexivity].
Qed.

(** X9: deleting one key changes no answer about another key: the
    lookup, the tries listing and the try details of any other key are as
    before. *)
Theorem delete_leaves_other_keys :
  forall (history_cascade : bool) (dag_id dag_run_id task_id : string)
         (session : Session) (map_index : Z)
         (dag_id' dag_run_id' task_id' : string) (map_index' : Z),
    (dag_id', dag_run_id', task_id', map_index')
    <> (dag_id, dag_run_id, task_id, map_index) ->
    let session' :=
      snd (delete_task_instance history_cascade dag_id dag_run_id task_id
             session map_index) in
    get_mapped_task_instance dag_id' dag_run_id' task_id' map_index' session'
    = get_mapped_task_instance dag_id' dag_run_id' task_id' map_index' session
    /\ get_task_instance_tries dag_id' dag_run_id' task_id' session' map_index'
       = get_task_instance_tries dag_id' dag_run_id' task_id' session map_index'
    /\ forall n,
         get_task_instance_try_details dag_id' dag_run_id' task_id' n
           session' map_index'
         = get_task_instance_try_details dag_id' dag_run_id' task_id' n
             session map_index'.
Proof.
  intros history_cascade dag_id dag_run_id task_id session map_index
         dag_id' dag_run_id' task_id' map_index' Hne session'.
  subst session'. rewrite delete_by_key.
  set (k := (dag_id, dag_run_id, task_id, map_index)) in *.
  set (k' := (dag_id', dag_run_id', task_id', map_index')) in *.
  destruct (find (by_key k) _) as [ti|]; cbn [snd];
    [|repeat split; reflexivity].
  assert (O : forall x, by_key k x = true -> by_key k' x = false).
  { intros x Hx. apply by_key_true in Hx. apply by_key_false. congruence. }
  split; [|split].
  - unfold get_mapped_task_instance, get_mapped_task_instance_query.
    rewrite !scalar_join_find. cbn [task_instance dag_run].
    change (fun ti0 : TI.t => _ && joined _ ti0)
      with (fun ti0 => by_key k' ti0 && joined session ti0).
    rewrite find_delete_first_other; [reflexivity|].
    intros x Hx. rewrite (O x Hx). reflexivity.
  - rewrite !tries_by_listing. unfold listed_tries.
    cbn [task_instance task_instance_history]. fold k'.
    rewrite filter_cascade_other by exact Hne.
    rewrite filter_delete_first_other; [reflexivity|].
    intros x Hx. apply O in Hx. unfold by_key in Hx. rewrite Hx. reflexivity.
  - intros n. unfold get_task_instance_try_details.
    rewrite !try_details_query_TI_find, !try_details_query_TIH_find.
    cbn [task_instance task_instance_history]. fold k'.
    rewrite find_cascade_other by exact Hne.
    rewrite find_delete_first_other; [reflexivity|].
    intros x Hx. unfold live_try. rewrite (O x Hx). reflexivity.
Qed.

Section MoreClearing.

Variable failed_equivalent : TaskInstanceState.t -> bool.
Variable running_equivalent : TaskInstanceState.t -> bool.

(** X10: whenever [post_clear_task_instances] raises, the session is
    as it was, and the error is NotFound or InvalidRequest. *)
Theorem clearing_error_leaves_the_session :
  forall (dag_id : string) (dag_bag : DagBag) (body : ClearTaskInstancesBody)
         (session session' : Session) (e : Exception),
    post_clear_task_instances failed_equivalent running_equivalent
      dag_id dag_bag body session = (Raise e, session') ->
    session' = session /\ (NotFound e \/ InvalidRequest e).
Proof.
  intros dag_id dag_bag body session session' e.
  unfold post_clear_task_instances.
  destruct body as [dry st en onf onr rdr tids rid up down fut past rolv].
  cbn -[partial_subset select_dag_run].
  destruct (get_latest_version_of_dag dag_bag dag_id) as [dag|].
  2:{ intros [= <- <-]. split; [reflexivity|left; eexists; reflexivity]. }
  destruct rid as [rid|].
  - destruct (scalar (select_dag_run session dag_id rid)) as [dr|].
    2:{ intros [= <- <-]. split; [reflexivity|left; eexists; reflexivity]. }
    destruct (get_dag_for_run dag_bag (Some dr)) as [dag'|].
    2:{ intros [= <- <-]. split; [reflexivity|left; eexists; reflexivity]. }
    destruct past, fut; cbn -[partial_subset select_dag_run];
      try (intros [= <- <-];
           split; [reflexivity|right; eexists; reflexivity]).
    destruct tids, onf, onr, dry; cbn -[partial_subset select_dag_run];
      try discriminate;
      intros [= <- <-];
      (split; [reflexivity|right; eexists; reflexivity]).
  - destruct past, fut, tids, onf, onr, dry;
      cbn -[partial_subset select_dag_run];
      try discriminate;
      intros [= <- <-];
      (split; [reflexivity|right; eexists; reflexivity]).
Qed.

(** X11: when [dag_run_id] is given, the [start_date] and [end_date]
    of the request have no influence on the outcome. *)
Theorem run_scope_ignores_the_dates :
  forall (dag_id : string) (dag_bag : DagBag) (body : ClearTaskInstancesBody)
         (session : Session) (run_id : string) (a b : option datetime),
    dag_run_id body = Some run_id ->
    post_clear_task_instances failed_equivalent running_equivalent
      dag_id dag_bag (with_end_date b (with_start_date a body)) session
    = post_clear_task_instances failed_equivalent running_equivalent
        dag_id dag_bag body session.
Proof.
  intros dag_id dag_bag body session run_id a b Hrun.
  unfold post_clear_task_instances.
  destruct body as [dry st en onf onr rdr tids rid up down fut past rolv].
  cbn in Hrun. subst rid.
  cbn -[dag_clear clear_task_instances partial_subset select_dag_run].
  destruct (get_latest_version_of_dag dag_bag dag_id) as [dag|]; [|reflexivity].
  destruct (scalar (select_dag_run session dag_id run_id)) as [dr|];
    [|reflexivity].
  destruct (get_dag_for_run dag_bag (Some dr)) as [dag'|]; [|reflexivity].
  destruct past, fut; reflexivity.
Qed.

End MoreClearing.

(** X12: when at least one mapped row matches,
    [get_mapped_task_instances] succeeds whatever the DAG bag holds: the
    task definition is not consulted. *)
Theorem mapped_listing_with_rows_ignores_the_dag_bag :
  forall (dag_id dag_run_id task_id : string) (page : Page)
         (session : Session),
    get_mapped_task_instances_query dag_id dag_run_id task_id session <> [] ->
    forall dag_bag dag_bag' : DagBag,
      get_mapped_task_instances dag_id dag_run_id task_id dag_bag page session
      = get_mapped_task_instances dag_id dag_run_id task_id dag_bag' page
          session
      /\ exists response,
           get_mapped_task_instances dag_id dag_run_id task_id dag_bag page
             session = Ok response.
Proof.
  intros dag_id dag_run_id task_id page session H dag_bag dag_bag'.
  unfold get_mapped_task_instances.
  destruct (get_mapped_task_instances_query _ _ _ _) as [|x l];
    [congruence|].
  cbn [List.length Nat.eqb bind].
  destruct (paginated_select (x :: l) page).
  split; [reflexivity|eexists; reflexivity].
Qed.

Lemma join_dag_run_iff (session : Session) (rows : list TI.t) (ti : TI.t) :
  In ti (join_dag_run session rows) <-> In ti rows /\ has_dag_run session ti.
Proof.
  unfold join_dag_run, has_dag_run. rewrite in_flat_map. split.
  - intros (x & Hx & Hin). apply in_map_iff in Hin.
    destruct Hin as (dr & <- & Hdr). apply filter_In in Hdr.
    split; [exact Hx|]. exists dr. exact Hdr.
  - intros (Hx & dr & Hdr & Ho). exists ti. split; [exact Hx|].
    apply in_map_iff. exists dr. split; [reflexivity|].
    apply filter_In. auto.
Qed.

Lemma firstn_In {A : Type} (n : nat) (l : list A) (x : A) :
  In x (firstn n l) -> In x l.
Proof.
  intros H. rewrite <- (firstn_skipn n l). apply in_or_app. left; exact H.
Qed.

Lemma skipn_In {A : Type} (n : nat) (l : list A) (x : A) :
  In x (skipn n l) -> In x l.
Proof.
  intros H. rewrite <- (firstn_skipn n l). apply in_or_app. right; exact H.
Qed.

Lemma paginated_select_In (statement : list TI.t) (page : Page) (ti : TI.t) :
  In ti (fst (paginated_select statement page)) ->
  In ti statement /\ filters page ti = true.
Proof.
  unfold paginated_select; cbn [fst]. intros H.
  apply firstn_In, skipn_In in H. apply filter_In.
  eapply Permutation_in; [apply Permutation_sym, sorted_perm|exact H].
Qed.

(** X13: for a [dag_run_id] other than the wildcard,
    [get_task_instances] answers that the dag run was not found exactly
    when no dag run, of any DAG, has that run id. *)
Theorem listing_fails_on_unknown_run_id :
  forall (dag_id dag_run_id : string) (dag_bag : DagBag) (page : Page)
         (session : Session),
    dag_run_id <> "~" ->
    ((forall dr, In dr (dag_run session) -> DagRun.run_id dr <> dag_run_id)
     <-> get_task_instances dag_id dag_run_id dag_bag page session
         = Raise (HTTPException status.HTTP_404_NOT_FOUND
                    (Str ("DagRun with run_id: `" ++ dag_run_id
                          ++ "` was not found")))).
Proof.
  intros dag_id dag_run_id dag_bag page session Hne.
  unfold get_task_instances.
  apply String.eqb_neq in Hne. rewrite Hne. cbn [negb].
  rewrite scalar_filter_find.
  destruct (find _ (dag_run session)) as [dr|] eqn:F.
  - apply find_some in F. destruct F as [Hin Hr].
    apply String.eqb_eq in Hr. split.
    + intros H. exfalso. exact (H dr Hin Hr).
    + cbn [bind]. destruct (negb (String.eqb dag_id "~")).
      * destruct (get_dag_for_run dag_bag (Some dr)); cbn [bind].
        -- destruct (paginated_select _ page). discriminate.
        -- intros H. exfalso. injection H as H. discriminate H.
      * cbn [bind]. destruct (paginated_select _ page). discriminate.
  - split; [reflexivity|].
    intros _ dr Hin Hr. pose proof (find_none _ _ F dr Hin) as Hf.
    cbn beta in Hf. rewrite Hr, String.eqb_refl in Hf. discriminate.
Qed.

(** X14: every task instance that [get_task_instances] returns is a
    live row with a dag run, of the requested run and DAG unless that
    argument is the wildcard, and passes the filters of the request. *)
Theorem listing_returns_rows_in_scope :
  forall (dag_id dag_run_id : string) (dag_bag : DagBag) (page : Page)
         (session : Session) (response : TaskInstanceCollectionResponse),
    get_task_instances dag_id dag_run_id dag_bag page session = Ok response ->
    forall ti, In ti (task_instances response) ->
      In ti (task_instance session)
      /\ has_dag_run session ti
      /\ (dag_run_id <> "~" -> TI.run_id ti = dag_run_id)
      /\ (dag_id <> "~" -> TI.dag_id ti = dag_id)
      /\ filters page ti = true.
Proof.
  intros dag_id dag_run_id dag_bag page session response.
  unfold get_task_instances.
  set (all := join_dag_run session (task_instance session)).
  assert (Hall : forall ti, In ti all ->
                   In ti (task_instance session) /\ has_dag_run session ti)
    by (intros ti; apply join_dag_run_iff).
  destruct (String.eqb dag_run_id "~") eqn:Er; cbn [negb bind].
  - apply String.eqb_eq in Er.
    destruct (String.eqb dag_id "~") eqn:Ed; cbn [negb bind].
    + apply String.eqb_eq in Ed.
      destruct (paginated_select all page) as [sel total] eqn:P.
      intros [= <-] ti Hin. cbn in Hin.
      change sel with (fst (sel, total)) in Hin. rewrite <- P in Hin.
      apply paginated_select_In in Hin. destruct Hin as [Hin Hf].
      destruct (Hall ti Hin). repeat split; try assumption; congruence.
    + destruct (get_latest_version_of_dag dag_bag dag_id); [|discriminate].
      cbn [bind].
      destruct (paginated_select _ page) as [sel total] eqn:P.
      intros [= <-] ti Hin. cbn in Hin.
      change sel with (fst (sel, total)) in Hin. rewrite <- P in Hin.
      apply paginated_select_In in Hin. destruct Hin as [Hin Hf].
      apply filter_In in Hin. destruct Hin as [Hin Hd].
      apply String.eqb_eq in Hd.
      destruct (Hall ti Hin). repeat split; try assumption; congruence.
  - destruct (scalar _) as [dr|]; [|discriminate]. cbn [bind].
    destruct (String.eqb dag_id "~") eqn:Ed; cbn [negb bind].
    + apply String.eqb_eq in Ed.
      destruct (paginated_select _ page) as [sel total] eqn:P.
      intros [= <-] ti Hin. cbn in Hin.
      change sel with (fst (sel, total)) in Hin. rewrite <- P in Hin.
      apply paginated_select_In in Hin. destruct Hin as [Hin Hf].
      apply filter_In in Hin. destruct Hin as [Hin Hr].
      apply String.eqb_eq in Hr.
      destruct (Hall ti Hin). repeat split; try assumption; congruence.
    + destruct (get_dag_for_run dag_bag (Some dr)); [|discriminate].
      cbn [bind].
      destruct (paginated_select _ page) as [sel total] eqn:P.
      intros [= <-] ti Hin. cbn in Hin.
      change sel with (fst (sel, total)) in Hin. rewrite <- P in Hin.
      apply paginated_select_In in Hin. destruct Hin as [Hin Hf].
      apply filter_In in Hin. destruct Hin as [Hin Hd].
      apply filter_In in Hin. destruct Hin as [Hin Hr].
      apply String.eqb_eq in Hd. apply String.eqb_eq in Hr.
      destruct (Hall ti Hin). repeat split; try assumption; congruence.
Qed.

(** X15: with the wildcard for both the DAG and the run,
    [get_task_instances] never fails and does not depend on the DAG
    bag. *)
Theorem listing_everything_never_fails :
  forall (page : Page) (session : Session) (dag_bag dag_bag' : DagBag),
    get_task_instances "~" "~" dag_bag page session
    = get_task_instances "~" "~" dag_bag' page session
    /\ exists response,
         get_task_instances "~" "~" dag_bag page session = Ok response.
Proof.
  intros page session dag_bag dag_bag'.
  unfold get_task_instances. cbn [String.eqb Ascii.eqb Bool.eqb negb bind].
  destruct (paginated_select _ page) as [sel total].
  split; [reflexivity|eexists; reflexivity].
Qed.

(** Dependencies *)

Lemma absent_key_filter (k : TIKey) (rows : list TI.t) :
  ~ In k (map TI.key rows) -> filter (by_key k) rows = [].
Proof.
  induction rows as [|r rows IH]; simpl; intros H; [reflexivity|].
  rewrite (proj2 (by_key_false k r)) by (intros E; apply H; left; exact E).
  apply IH. intros Hin; apply H; right; exact Hin.
Qed.

Lemma unique_key_filter (k : TIKey) (rows : list TI.t) (ti : TI.t) :
  NoDup (map TI.key rows) -> In ti rows -> TI.key ti = k ->
  filter (by_key k) rows = [ti].
Proof.
  induction rows as [|r rows IH]; simpl; intros N Hin Hk; [destruct Hin|].
  inversion N as [|? ? Hnot N']; subst.
  destruct Hin as [->|Hin].
  - rewrite (proj2 (by_key_true _ _) eq_refl). f_equal.
    apply absent_key_filter, Hnot.
  - rewrite (proj2 (by_key_false (TI.key ti) r)); [apply IH; auto|].
    intros E. apply Hnot. rewrite E. apply in_map, Hin.
Qed.

(** X16: when keys are unique among the live rows,
    [get_task_instance_dependencies] answers NotFound, evaluating nothing,
    if no row has the key, and succeeds if a row has it. *)
Theorem dependencies_with_unique_keys :
  forall (deps : list Dep) (dag_id dag_run_id task_id : string)
         (session : Session) (dag_bag : DagBag) (map_index : Z),
    NoDup (map TI.key (task_instance session)) ->
    let k : TIKey := (dag_id, dag_run_id, task_id, map_index) in
    let run :=
      get_task_instance_dependencies deps dag_id dag_run_id task_id
        session dag_bag map_index in
    ((forall ti, In ti (task_instance session) -> TI.key ti <> k) ->
       (exists e, fst run = Raise e /\ NotFound e) /\ snd run = [])
    /\ (forall ti, In ti (task_instance session) -> TI.key ti = k ->
          exists response, fst run = Ok response).
Proof.
  intros deps dag_id dag_run_id task_id session dag_bag map_index N k run.
  subst run. unfold get_task_instance_dependencies.
  rewrite dependencies_query_by_key. fold k. split.
  - intros H. rewrite absent_key_filter.
    + cbn. split; [|reflexivity].
      eexists; split; [reflexivity|eexists; reflexivity].
    + intros Hin. apply in_map_iff in Hin.
      destruct Hin as (ti & Hk & Hin). exact (H ti Hin Hk).
  - intros ti Hin Hk. rewrite (unique_key_filter k _ ti N Hin Hk).
    cbn [one_or_none].
    destruct (is_none_or_scheduled (TI.state ti));
      [|eexists; reflexivity].
    destruct (get_dag_for_run dag_bag _) as [dag|]; [|eexists; reflexivity].
    unfold get_task.
    destruct (find _ (task_dict dag)); eexists; reflexivity.
Qed.

(** X17: when the DAG of the task instance cannot be resolved, or does
    not have its task, [get_task_instance_dependencies] returns the empty
    list and evaluates no policy: the missing definition is not an
    error. *)
Theorem dependencies_without_task_definition :
  forall (deps : list Dep) (dag_id dag_run_id task_id : string)
         (session : Session) (dag_bag : DagBag) (map_index : Z) (ti : TI.t),
    filter (by_key (dag_id, dag_run_id, task_id, map_index))
           (task_instance session) = [ti] ->
    let dag :=
      get_dag_for_run dag_bag
        (scalar (select_dag_run session (TI.dag_id ti) (TI.run_id ti))) in
    (dag = None
     \/ exists d, dag = Some d
                  /\ ~ In (TI.task_id ti) (map fst (task_dict d))) ->
    get_task_instance_dependencies deps dag_id dag_run_id task_id
      session dag_bag map_index
    = (Ok {| dependencies := [] |}, []).
Proof.
  intros deps dag_id dag_run_id task_id session dag_bag map_index ti F dag H.
  unfold get_task_instance_dependencies.
  rewrite dependencies_query_by_key, F. cbn [one_or_none].
  destruct (is_none_or_scheduled (TI.state ti)); [|reflexivity].
  fold dag. destruct H as [->|(d & -> & Hd)]; [reflexivity|].
  rewrite (get_task_missing _ _ Hd). reflexivity.
Qed.

(** ** The further properties on the example installation *)

Lemma store_keys_unique : NoDup (map TI.key (task_instance Example.store)).
Proof.
  repeat constructor; cbn;
    repeat (intros [H|H]; [discriminate H|revert H]); intros [].
Qed.

Lemma get_mapped_task_instance_finds_the_key_witness :
  In Example.load_r1_0 (task_instance Example.store)
  /\ TI.key Example.load_r1_0 = ("etl", "r1", "load", 0)
  /\ has_dag_run Example.store Example.load_r1_0.
Proof.
  apply (proj1 (get_mapped_task_instance_finds_the_key
                  "etl" "r1" "load" 0 Example.store)).
  reflexivity.
Defined.

Lemma unmapped_lookup_agrees_with_mapped_lookup_witness :
  get_mapped_task_instance "etl" "r1" "extract" (-1) Example.store
  = Ok Example.extract_r1.
Proof.
  apply unmapped_lookup_agrees_with_mapped_lookup. reflexivity.
Defined.

Lemma mapped_error_points_to_a_mapped_row_witness :
  exists ti,
    TI.map_index ti <> -1
    /\ get_mapped_task_instance "etl" "r1" "load" (TI.map_index ti)
         Example.store = Ok ti.
Proof.
  apply mapped_error_points_to_a_mapped_row. reflexivity.
Defined.

Lemma try_details_prefers_the_live_row_witness :
  In Example.extract_r2_try1 (task_instance_history Example.store)
  /\ TIHKey.key Example.extract_r2_try1 = ("etl", "r2", "extract", -1)
  /\ TIH.try_number Example.extract_r2_try1 = 1
  /\ forall ti, In ti (task_instance Example.store) ->
       TI.key ti = ("etl", "r2", "extract", -1) -> TI.try_number ti <> 1.
Proof.
  apply (proj1 (proj2 (try_details_prefers_the_live_row
                         "etl" "r2" "extract" 1 Example.store (-1)))).
  reflexivity.
Defined.

Lemma try_details_and_tries_listing_witness :
  exists found,
    get_task_instance_try_details "etl" "r2" "extract" 1 Example.store (-1)
    = Ok found
    /\ try_row_key found = ("etl", "r2", "extract", -1)
    /\ try_row_number found = 1.
Proof.
  apply (proj1 (try_details_and_tries_listing
                  "etl" "r2" "extract" Example.store (-1))
           {| tries_task_instances :=
                [History Example.extract_r2_try1; Live Example.extract_r2];
              tries_total_entries := 2 |}
           (History Example.extract_r2_try1)).
  - reflexivity.
  - left; reflexivity.
Defined.

Lemma delete_fails_only_when_absent_witness :
  NotFound
    (HTTPException status.HTTP_404_NOT_FOUND
       (Str "The Task Instance with dag_id: `etl`, run_id: `r1`, task_id: `nope` and map_index: `-1` was not found"))
  /\ snd (delete_task_instance true "etl" "r1" "nope" Example.store (-1))
     = Example.store.
Proof.
  apply (proj2 (delete_fails_only_when_absent
                  true "etl" "r1" "nope" Example.store (-1))).
  reflexivity.
Defined.

Lemma delete_removes_one_row_witness :
  exists before ti after,
    task_instance Example.store = (before ++ ti :: after)%list
    /\ task_instance Cases.store_without_extract_r1 = (before ++ after)%list
    /\ TI.key ti = ("etl", "r1", "extract", -1)
    /\ forall x, In x before -> TI.key x <> ("etl", "r1", "extract", -1).
Proof.
  apply (delete_removes_one_row true "etl" "r1" "extract" Example.store
           Cases.store_without_extract_r1 (-1)).
  reflexivity.
Defined.

Lemma delete_then_lookup_is_not_found_witness :
  NoDup (map TI.key (task_instance Cases.store_without_extract_r1))
  /\ (exists e,
        get_mapped_task_instance "etl" "r1" "extract" (-1)
          Cases.store_without_extract_r1 = Raise e /\ NotFound e)
  /\ (exists e,
        delete_task_instance true "etl" "r1" "extract"
          Cases.store_without_extract_r1 (-1)
        = (Raise e, Cases.store_without_extract_r1) /\ NotFound e).
Proof.
  apply (delete_then_lookup_is_not_found true "etl" "r1" "extract"
           Example.store Cases.store_without_extract_r1 (-1)).
  - exact store_keys_unique.
  - reflexivity.
Defined.

Lemma delete_leaves_other_keys_witness :
  get_mapped_task_instance "etl" "r2" "extract" (-1)
    (snd (delete_task_instance true "etl" "r1" "extract" Example.store
            (-1)))
  = get_mapped_task_instance "etl" "r2" "extract" (-1) Example.store.
Proof.
  apply (delete_leaves_other_keys true "etl" "r1" "extract" Example.store
           (-1) "etl" "r2" "extract" (-1)).
  discriminate.
Defined.

Lemma clearing_error_leaves_the_session_witness :
  Example.store = Example.store
  /\ (NotFound (HTTPException status.HTTP_404_NOT_FOUND
                  (Str "Dag Run id r9 not found in dag etl"))
      \/ InvalidRequest (HTTPException status.HTTP_404_NOT_FOUND
                           (Str "Dag Run id r9 not found in dag etl"))).
Proof.
  apply (clearing_error_leaves_the_session
           Example.no_equivalent Example.no_equivalent
           "etl" Example.bag Example.clear_missing_run_past Example.store).
  reflexivity.
Defined.

Lemma run_scope_ignores_the_dates_witness :
  post_clear_task_instances Example.no_equivalent Example.no_equivalent
    "etl" Example.bag
    (with_end_date (Some 2)
       (with_start_date (Some 1) (Cases.clear_r1_dated None None)))
    Example.store
  = post_clear_task_instances Example.no_equivalent Example.no_equivalent
      "etl" Example.bag (Cases.clear_r1_dated None None) Example.store.
Proof.
  apply (run_scope_ignores_the_dates
           Example.no_equivalent Example.no_equivalent
           "etl" Example.bag (Cases.clear_r1_dated None None)
           Example.store "r1").
  reflexivity.
Defined.

Lemma mapped_listing_with_rows_ignores_the_dag_bag_witness :
  get_mapped_task_instances "etl" "r1" "load" Example.bag
    Example.by_map_index Example.store
  = get_mapped_task_instances "etl" "r1" "load" Cases.empty_bag
      Example.by_map_index Example.store
  /\ exists response,
       get_mapped_task_instances "etl" "r1" "load" Example.bag
         Example.by_map_index Example.store = Ok response.
Proof.
  apply mapped_listing_with_rows_ignores_the_dag_bag.
  vm_compute; discriminate.
Defined.

Lemma listing_fails_on_unknown_run_id_witness :
  get_task_instances "etl" "r9" Example.bag Example.by_map_index Example.store
  = Raise (HTTPException status.HTTP_404_NOT_FOUND
             (Str "DagRun with run_id: `r9` was not found")).
Proof.
  apply (proj1 (listing_fails_on_unknown_run_id
                  "etl" "r9" Example.bag Example.by_map_index Example.store
                  ltac:(discriminate))).
  intros dr [<-|[<-|[]]]; discriminate.
Defined.

Lemma listing_returns_rows_in_scope_witness :
  In Example.load_r1_0 (task_instance Example.store)
  /\ has_dag_run Example.store Example.load_r1_0
  /\ ("r1" <> "~" -> TI.run_id Example.load_r1_0 = "r1")
  /\ ("etl" <> "~" -> TI.dag_id Example.load_r1_0 = "etl")
  /\ filters Example.by_map_index Example.load_r1_0 = true.
Proof.
  apply (listing_returns_rows_in_scope
           "etl" "r1" Example.bag Example.by_map_index Example.store
           Cases.r1_listing eq_refl).
  right; left; reflexivity.
Defined.

Lemma dependencies_with_unique_keys_witness :
  exists response,
    fst (get_task_instance_dependencies
           [Example.pool_slots; Example.dag_unpaused]
           "etl" "r2" "load" Example.store Example.bag 0)
    = Ok response.
Proof.
  apply (proj2 (dependencies_with_unique_keys
                  [Example.pool_slots; Example.dag_unpaused]
                  "etl" "r2" "load" Example.store Example.bag 0
                  store_keys_unique))
    with (ti := Example.load_r2_0).
  - right; right; right; left; reflexivity.
  - reflexivity.
Defined.

Lemma dependencies_without_task_definition_witness :
  get_task_instance_dependencies
    [Example.pool_slots; Example.dag_unpaused]
    "etl" "r2" "load" Example.store Cases.empty_bag 0
  = (Ok {| dependencies := [] |}, []).
Proof.
  apply (dependencies_without_task_definition
           [Example.pool_slots; Example.dag_unpaused]
           "etl" "r2" "load" Example.store Cases.empty_bag 0
           Example.load_r2_0).
  - reflexivity.
  - left; reflexivity.
Defined.
